(** * nyctaxi-streamlit: the DuckDB builder and the dashboard filter

    A shallow embedding of [build_duckdb.py] (both generations of the
    builder) and of [filter_by_date_service] from [streamlit_app.py],
    with the properties of the date-column resolver, of the normalizing
    views, of the build's failure behaviour and of the dashboard filter.

    Column names are modelled as strings of 8-bit characters; Python's
    [str.lower] is modelled on the ASCII letters (other characters are
    left as they are). *)

From Stdlib Require Import ZArith Ascii String List Bool Lia.
From stdpp Require Import base strings list gmap.

Local Open Scope string_scope.
Local Open Scope list_scope.

(** ** Strings, as the Python code uses them *)

Module Str.

(** The double-quote character (code 34). *)
Definition dquote : ascii := "034"%char.

(** [ch.lower()] on one character. *)
Definition lower_ascii (c : ascii) : ascii :=
  let n := nat_of_ascii c in
  if (65 <=? n)%nat && (n <=? 90)%nat then ascii_of_nat (n + 32) else c.

(** [s.lower()] *)
Fixpoint lower (s : string) : string :=
  match s with
  | EmptyString => EmptyString
  | String c s' => String (lower_ascii c) (lower s')
  end.

(** [needle in hay] on strings: some suffix of [hay] starts with [needle]. *)
Fixpoint contains (needle hay : string) : bool :=
  String.prefix needle hay ||
  match hay with
  | EmptyString => false
  | String _ hay' => contains needle hay'
  end.

(** [s.endswith(suf)]: some suffix of [s] is [suf]. *)
Fixpoint endswith (s suf : string) : bool :=
  String.eqb s suf ||
  match s with
  | EmptyString => false
  | String _ s' => endswith s' suf
  end.

(** [ch in s] for a character. *)
Fixpoint has_char (ch : ascii) (s : string) : bool :=
  match s with
  | EmptyString => false
  | String c s' => Ascii.eqb ch c || has_char ch s'
  end.

(** The test of lines 44 and 51: does [orig] hold a space, a hyphen or
    a double quote? *)
Definition any_special (orig : string) : bool :=
  existsb (fun ch => has_char ch orig) [" "%char; "-"%char; dquote].

(** [sep.join(parts)] *)
Definition join (sep : string) (parts : list string) : string :=
  String.concat sep parts.

End Str.

(** ** The date-column resolver of [build_duckdb.py] *)

Module Resolver.

Import Str.

Definition DATE_CANDIDATES : list string :=
  [ "pickup_date"; "date"; "service_date";
    "pickup_datetime"; "tpep_pickup_datetime"; "lpep_pickup_datetime";
    "fhv_pickup_datetime"; "fhvhv_pickup_datetime" ].

(** [{c.lower(): c for c in cols}]: a later column overwrites an earlier
    one with the same lower-cased name. *)
Definition lower_map (cols : list string) : gmap string string :=
  foldl (fun m c => <[lower c := c]> m) ∅ cols.

(** The reference [t.] followed by [orig] between double quotes, as the
    f-strings of lines 44 and 51 write it ([orig] is inserted as it is). *)
Definition dq_ref (orig : string) : string :=
  "t." +:+ String dquote (orig +:+ String dquote "").

(** The reference [t.] followed by [orig] as it is. *)
Definition bare_ref (orig : string) : string := "t." +:+ orig.

(** The cast [TRY_CAST(q AS DATE)] of lines 45 and 52. *)
Definition try_cast (q : string) : string := "TRY_CAST(" +:+ q +:+ " AS DATE)".

(** The quoting of tier 1 (line 44). *)
Definition quoted1 (orig : string) : string :=
  if String.eqb (lower orig) "date" || any_special orig
  then dq_ref orig else bare_ref orig.

(** The quoting of tier 2 (line 51). *)
Definition quoted2 (orig : string) : string :=
  if any_special orig then dq_ref orig else bare_ref orig.

(** The expression of tier 3 (line 58). *)
Definition strptime_cast (orig : string) : string :=
  "TRY_CAST(STRPTIME(CAST(t." +:+ orig +:+ " AS VARCHAR), '%Y%m%d') AS DATE)".

(** The test of tier 2 (line 50). *)
Definition is_generic (orig : string) : bool :=
  let low := lower orig in
  contains "date" low || contains "datetime" low
  || bool_decide (low ∈ ({[ "dt"; "ds"; "day" ]} : gset string))
  || endswith low "_date".

(** The test of tier 3 (line 57). *)
Definition is_date_key (orig : string) : bool :=
  let low := lower orig in
  String.eqb low "date_key" || endswith low "_date_key".

(** One turn of the loop of lines 41-45. *)
Definition step1 (lowmap : gmap string string) (exprs : list string)
    (cname : string) : list string :=
  match lowmap !! lower cname with
  | Some orig => exprs ++ [try_cast (quoted1 orig)]
  | None => exprs
  end.

(** One turn of the loop of lines 48-52. *)
Definition step2 (exprs : list string) (orig : string) : list string :=
  if is_generic orig then exprs ++ [try_cast (quoted2 orig)] else exprs.

(** One turn of the loop of lines 55-58. *)
Definition step3 (exprs : list string) (orig : string) : list string :=
  if is_date_key orig then exprs ++ [strptime_cast orig] else exprs.

Definition is_empty {A} (l : list A) : bool :=
  match l with [] => true | _ => false end.

(** The list [exprs] when line 59 is reached. *)
Definition candidates (cols : list string) : list string :=
  let lowmap := lower_map cols in
  let exprs := foldl (step1 lowmap) [] DATE_CANDIDATES in
  let exprs := if is_empty exprs then foldl step2 exprs cols else exprs in
  let exprs := if is_empty exprs then foldl step3 exprs cols else exprs in
  exprs.

Definition build_date_expr (cols : list string) : string :=
  let exprs := candidates cols in
  if is_empty exprs then "NULL::DATE"
  else "COALESCE(" +:+ join ", " exprs +:+ ")".

(** *** The tiers, for the statements *)

(** Lower-casing in the words of the specification, without the code's
    arithmetic on character codes: each of the 26 capital letters goes
    to its small letter, any other character stays. *)
Definition CAPITALS : string := "ABCDEFGHIJKLMNOPQRSTUVWXYZ".
Definition SMALLS : string := "abcdefghijklmnopqrstuvwxyz".

Definition letter_pairs : list (ascii * ascii) :=
  combine (list_ascii_of_string CAPITALS) (list_ascii_of_string SMALLS).

Definition lowered_char (a b : ascii) : Prop :=
  (a, b) ∈ letter_pairs ∨ ((a ∉ list_ascii_of_string CAPITALS) ∧ b = a).

(** [lowered s low]: [low] is the lower-cased form of [s]. *)
Inductive lowered : string -> string -> Prop :=
  | lowered_nil : lowered EmptyString EmptyString
  | lowered_cons (a b : ascii) (s low : string) :
      lowered_char a b -> lowered s low ->
      lowered (String a s) (String b low).

(** The tier-2 test in the words of the specification, on a lower-cased
    name. *)
Definition generic_name (low : string) : Prop :=
  (∃ pre post, low = pre +:+ "date" +:+ post)
  ∨ (∃ pre post, low = pre +:+ "datetime" +:+ post)
  ∨ low ∈ ["dt"; "ds"; "day"]
  ∨ (∃ pre, low = pre +:+ "_date").

(** The tier-3 test in the words of the specification. *)
Definition date_key_name (low : string) : Prop :=
  low = "date_key" ∨ ∃ pre, low = pre +:+ "_date_key".

(** The columns tier 1 selects, in the order of [DATE_CANDIDATES]. *)
Definition matches1 (cols : list string) : list string :=
  omap (fun cname => lower_map cols !! lower cname) DATE_CANDIDATES.

Definition cast1 (orig : string) : string := try_cast (quoted1 orig).
Definition cast2 (orig : string) : string := try_cast (quoted2 orig).

(** The columns the resolver selects: the matches of tier 1, or else
    the columns that pass the test of tier 2, in column order. *)
Definition selected (cols : list string) : list string :=
  match matches1 cols with
  | [] => List.filter is_generic cols
  | ms => ms
  end.

End Resolver.

(** ** The engine: the fragment of DuckDB's SQL that the builder emits

    The builder only composes SQL text; what the text means is decided
    by DuckDB.  This module is the model of the engine that the
    properties of the views are stated against: a reader for the column
    references and date expressions the builder writes, values, tables,
    views, and the statements of [main]. *)

Module Sql.

Import Str.

(** *** Reading identifiers *)

Definition is_digit (c : ascii) : bool :=
  let n := nat_of_ascii c in (48 <=? n)%nat && (n <=? 57)%nat.

Definition ident_start (c : ascii) : bool :=
  let n := nat_of_ascii c in
  ((65 <=? n)%nat && (n <=? 90)%nat) || ((97 <=? n)%nat && (n <=? 122)%nat)
  || (n =? 95)%nat.

Definition ident_char (c : ascii) : bool := ident_start c || is_digit c.

(** The longest run of identifier characters at the start of [s], and
    what follows it. *)
Fixpoint read_bare (s : string) : string * string :=
  match s with
  | EmptyString => (EmptyString, EmptyString)
  | String c s' =>
      if ident_char c
      then let '(n, r) := read_bare s' in (String c n, r)
      else (EmptyString, s)
  end.

(** The body of a quoted identifier, after its opening double quote: it
    ends at the first double quote that is not doubled; a doubled one
    stands for one double quote of the name. *)
Fixpoint read_quoted (s : string) : option (string * string) :=
  match s with
  | EmptyString => None
  | String c s' =>
      if Ascii.eqb c dquote then
        match s' with
        | String c' s'' =>
            if Ascii.eqb c' dquote
            then '(n, r) ← read_quoted s''; Some (String dquote n, r)
            else Some (EmptyString, s')
        | EmptyString => Some (EmptyString, EmptyString)
        end
      else '(n, r) ← read_quoted s'; Some (String c n, r)
  end.

(** An identifier, quoted or bare: its name and the rest of the text. *)
Definition read_ident (s : string) : option (string * string) :=
  match s with
  | EmptyString => None
  | String c s' =>
      if Ascii.eqb c dquote then read_quoted s'
      else if ident_start c then Some (read_bare s) else None
  end.

(** [strip p s]: the rest of [s] after its prefix [p], if [p] is one. *)
Fixpoint strip (p s : string) : option string :=
  match p with
  | EmptyString => Some s
  | String a p' =>
      match s with
      | EmptyString => None
      | String b s' => if Ascii.eqb a b then strip p' s' else None
      end
  end.

(** *** Date expressions *)

(** A candidate of the COALESCE list: the cast of a column to DATE, or
    the parse of a column as YYYYMMDD. *)
Inductive cand :=
  | CastDate (col : string)
  | CastYmd (col : string).

Inductive dexpr :=
  | NullDate
  | Coalesce (cs : list cand).

Definition read_cand (s : string) : option (cand * string) :=
  s1 ← strip "TRY_CAST(" s;
  match strip "STRPTIME(CAST(t." s1 with
  | Some s2 =>
      '(n, s3) ← read_ident s2;
      s4 ← strip " AS VARCHAR), '%Y%m%d') AS DATE)" s3;
      Some (CastYmd n, s4)
  | None =>
      s2 ← strip "t." s1;
      '(n, s3) ← read_ident s2;
      s4 ← strip " AS DATE)" s3;
      Some (CastDate n, s4)
  end.

(** The candidates up to the closing parenthesis, which must end the
    text. *)
Fixpoint read_cands (fuel : nat) (s : string) : option (list cand) :=
  match fuel with
  | O => None
  | S fuel' =>
      '(c, s1) ← read_cand s;
      match strip ", " s1 with
      | Some s2 => cs ← read_cands fuel' s2; Some (c :: cs)
      | None => if String.eqb s1 ")" then Some [c] else None
      end
  end.

Definition parse_date_expr (s : string) : option dexpr :=
  if String.eqb s "NULL::DATE" then Some NullDate
  else
    s1 ← strip "COALESCE(" s;
    cs ← read_cands (String.length s1) s1;
    Some (Coalesce cs).

(** A name that can be written bare: a letter or an underscore, then
    letters, digits and underscores. *)
Fixpoint all_ident (s : string) : bool :=
  match s with
  | EmptyString => true
  | String c s' => ident_char c && all_ident s'
  end.

Definition plain (o : string) : bool :=
  match o with
  | EmptyString => false
  | String c _ => ident_start c && all_ident o
  end.

(** A name the resolver writes in a form the engine reads back: it holds
    no double quote, and it is plain unless the resolver quotes it. *)
Definition readable (o : string) : Prop :=
  has_char dquote o = false ∧ (any_special o = true ∨ plain o = true).

(** [s] is the text of candidate [c], whatever follows it. *)
Definition renders (c : cand) (s : string) : Prop :=
  ∀ r, read_cand (s +:+ r) = Some (c, r).

(** *** Values, rows and tables *)

(** Dates are days since the epoch. *)
Inductive value :=
  | VNull
  | VDate (days : Z)
  | VTimestamp (days : Z) (micros : Z)
  | VInt (n : Z)
  | VText (s : string).

Definition row := list value.

Record table := { t_cols : list string; t_rows : list row }.

(** Every row of the table has a cell for every column. *)
Definition table_ok (t : table) : Prop :=
  Forall (fun r : row => length r = length (t_cols t)) (t_rows t).

(** Column names are compared without regard to case. *)
Definition same_name (a b : string) : bool := String.eqb (lower a) (lower b).

Definition has_col (cols : list string) (name : string) : bool :=
  existsb (fun c => same_name c name) cols.

(** The cell of [r] under the first column called [name]. *)
Definition lookup_col (cols : list string) (r : row) (name : string)
    : option value :=
  snd <$> find (fun p => same_name (fst p) name) (combine cols r).

(** The conversions of the engine.  What TRY_CAST makes of a text or of
    a number is left open; a DATE casts to itself and a NULL stays NULL. *)
Class Caster := {
  try_cast_date : value -> option Z;
  strptime_ymd : value -> option Z;
  try_cast_date_of_date : forall d, try_cast_date (VDate d) = Some d;
  try_cast_date_of_null : try_cast_date VNull = None;
}.

Section Eval.

Context `{Caster}.

Definition eval_cand (cols : list string) (r : row) (c : cand) : option Z :=
  match c with
  | CastDate n => v ← lookup_col cols r n; try_cast_date v
  | CastYmd n => v ← lookup_col cols r n; strptime_ymd v
  end.

(** COALESCE: the first candidate that is not NULL. *)
Fixpoint eval_coalesce (cols : list string) (r : row) (cs : list cand)
    : option Z :=
  match cs with
  | [] => None
  | c :: cs' =>
      match eval_cand cols r c with
      | Some d => Some d
      | None => eval_coalesce cols r cs'
      end
  end.

Definition eval_dexpr (cols : list string) (r : row) (e : dexpr) : value :=
  match e with
  | NullDate => VNull
  | Coalesce cs =>
      match eval_coalesce cols r cs with
      | Some d => VDate d
      | None => VNull
      end
  end.

End Eval.

(** *** Parquet parts *)

Record part := { p_path : string; p_data : table }.

Definition add_col (cols : list string) (c : string) : list string :=
  if has_col cols c then cols else cols ++ [c].

Definition union_cols (parts : list part) : list string :=
  foldl (fun acc p => foldl add_col acc (t_cols (p_data p))) [] parts.

(** The rows of [t] laid out under [cols]; a column [t] lacks is NULL. *)
Definition widen (cols : list string) (t : table) : list row :=
  map (fun r => map (fun c => default VNull (lookup_col (t_cols t) r c)) cols)
      (t_rows t).

(** [read_parquet(pat, union_by_name=true)] over the matched parts. *)
Definition read_parquet (parts : list part) : table :=
  let cols := union_cols parts in
  {| t_cols := cols;
     t_rows := concat (map (fun p => widen cols (p_data p)) parts) |}.

(** [parquet_scan(pat, filename=true)], without union_by_name: the schema
    is that of the first part, and the engine adds one column, filename,
    with the path of the part a row comes from.  The engine refuses the
    scan, which is [None] here, when the schema has a column filename
    already and when a part lacks a column of the schema; columns a
    later part has beyond the schema are not read.  The types of the
    columns are not modelled. *)
Definition covers (cols : list string) (p : part) : bool :=
  forallb (has_col (t_cols (p_data p))) cols.

Definition parquet_scan (parts : list part) : option table :=
  let cols := match parts with [] => [] | p :: _ => t_cols (p_data p) end in
  if has_col cols "filename" || negb (forallb (covers cols) parts) then None
  else Some {| t_cols := cols ++ ["filename"];
               t_rows := concat (map (fun p =>
                           map (fun r => r ++ [VText (p_path p)])
                               (widen cols (p_data p)))
                           parts) |}.

(** *** Databases and statements *)

Record view := { v_source : string; v_exclude : bool; v_expr : dexpr }.

Record database := {
  tables : gmap string table;
  views : gmap string view;
  indexes : gmap string (string * string);
}.

Definition empty_db : database :=
  {| tables := ∅; views := ∅; indexes := ∅ |}.

Inductive error :=
  | FileNotFoundError (msg : string)
  | EngineError.

Inductive result (A : Type) :=
  | Ok (a : A)
  | Err (e : error).
Arguments Ok {A} a.
Arguments Err {A} e.

(** The statements the two builders send to the connection.
    - [CreateTableUnion tbl pat]:
      CREATE OR REPLACE TABLE tbl AS SELECT * FROM read_parquet(pat, union_by_name=true)
    - [CreateTableScan tbl pat]:
      CREATE OR REPLACE TABLE tbl AS SELECT * FROM parquet_scan(pat, filename=true)
    - [CreateView tbl true e]:
      CREATE OR REPLACE VIEW v_tbl AS SELECT t.* EXCLUDE (pickup_date), e AS pickup_date FROM tbl AS t
    - [CreateView tbl false e]:
      CREATE OR REPLACE VIEW v_tbl AS SELECT t.*, e AS pickup_date FROM tbl AS t
    - [CreateIndex idx tbl col]:
      CREATE INDEX IF NOT EXISTS idx ON tbl(col) *)
Inductive stmt :=
  | CreateTableUnion (tbl pat : string)
  | CreateTableScan (tbl pat : string)
  | CreateView (tbl : string) (exclude_pd : bool) (date_expr : string)
  | CreateIndex (idx tbl col : string).

Definition cand_col (c : cand) : string :=
  match c with CastDate n => n | CastYmd n => n end.

(** Every column the expression names is a column of the table. *)
Definition binds (cols : list string) (e : dexpr) : bool :=
  match e with
  | NullDate => true
  | Coalesce cs => forallb (fun c => has_col cols (cand_col c)) cs
  end.

Definition with_table (db : database) (tbl : string) (t : table) : database :=
  {| tables := <[tbl := t]> (tables db); views := views db;
     indexes := indexes db |}.

Definition with_view (db : database) (name : string) (v : view) : database :=
  {| tables := tables db; views := <[name := v]> (views db);
     indexes := indexes db |}.

Definition with_index (db : database) (idx tbl col : string) : database :=
  {| tables := tables db; views := views db;
     indexes := <[idx := (tbl, col)]> (indexes db) |}.

(** [con.execute(sql)]: the new database, or the error the engine raises.
    [files] gives the parts a glob pattern matches. *)
Definition execute (files : string -> list part) (db : database) (s : stmt)
    : result database :=
  match s with
  | CreateTableUnion tbl pat =>
      match files pat with
      | [] => Err EngineError
      | parts => Ok (with_table db tbl (read_parquet parts))
      end
  | CreateTableScan tbl pat =>
      match files pat with
      | [] => Err EngineError
      | parts =>
          match parquet_scan parts with
          | Some t => Ok (with_table db tbl t)
          | None => Err EngineError
          end
      end
  | CreateView tbl exclude_pd date_expr =>
      match tables db !! tbl, parse_date_expr date_expr with
      | Some t, Some e =>
          if binds (t_cols t) e
             && (negb exclude_pd || has_col (t_cols t) "pickup_date")
          then Ok (with_view db ("v_" +:+ tbl)
                     {| v_source := tbl; v_exclude := exclude_pd; v_expr := e |})
          else Err EngineError
      | _, _ => Err EngineError
      end
  | CreateIndex idx tbl col =>
      match tables db !! tbl with
      | Some t =>
          if has_col (t_cols t) col
          then match indexes db !! idx with
               | Some _ => Ok db
               | None => Ok (with_index db idx tbl col)
               end
          else Err EngineError
      | None => Err EngineError
      end
  end.

(** *** Reading a view *)

Section Select.

Context `{Caster}.

(** [t.*] keeps every column; [t.* EXCLUDE (pickup_date)] drops the one
    called pickup_date. *)
Definition keep_col (exclude_pd : bool) (c : string) : bool :=
  negb (exclude_pd && same_name c "pickup_date").

Definition view_cols (exclude_pd : bool) (cols : list string) : list string :=
  List.filter (keep_col exclude_pd) cols ++ ["pickup_date"].

Definition project (exclude_pd : bool) (cols : list string) (r : row) : row :=
  map snd (List.filter (fun p => keep_col exclude_pd (fst p)) (combine cols r)).

Definition view_row (v : view) (cols : list string) (r : row) : row :=
  project (v_exclude v) cols r ++ [eval_dexpr cols r (v_expr v)].

(** [SELECT * FROM name] for a view [name]. *)
Definition select_view (db : database) (name : string) : option table :=
  v ← views db !! name;
  t ← tables db !! v_source v;
  Some {| t_cols := view_cols (v_exclude v) (t_cols t);
          t_rows := map (view_row v (t_cols t)) (t_rows t) |}.

End Select.

(** The expression the resolver means for a column list: NULL, or the
    COALESCE of the casts of the selected columns. *)
Definition resolved (cols : list string) : dexpr :=
  match Resolver.selected cols with
  | [] => NullDate
  | os => Coalesce (map CastDate os)
  end.

End Sql.

(** ** The builder [build_duckdb.py] *)

Module Build.

Import Str Resolver Sql.

Definition DATA_DIR : string := "data".
Definition OUT_DB : string := "nyctaxi.duckdb".

Definition FILES : list (string * string) :=
  [ ("dim_taxi_zone",         "01_dim_taxi_zone/*.parquet");
    ("pu_zone_daily",         "02_fact_trips_sample/*.parquet");
    ("daily_service_metrics", "03_daily_service_metrics/*.parquet");
    ("zone_pair_flow",        "04_zone_pair_flow/*.parquet");
    ("payment_mix",           "05_payment_mix/*.parquet");
    ("vendor_share",          "06_vendor_share/*.parquet");
    ("tip_hotspots",          "07_tip_hotspots/*.parquet");
    ("airport_traffic_daily", "08_airport_traffic_daily/*.parquet");
    ("service_efficiency",    "09_service_efficiency/*.parquet");
    ("rush_hour_pickups",     "10_rush_hour_pickups/*.parquet") ].

(** The tables of the index loop (lines 103-105). *)
Definition INDEX_TABLES : list string :=
  [ "daily_service_metrics"; "payment_mix"; "airport_traffic_daily";
    "service_efficiency"; "rush_hour_pickups"; "pu_zone_daily";
    "zone_pair_flow"; "tip_hotspots"; "vendor_share" ].

(** The views of the date-span query (lines 110-119). *)
Definition SPAN_VIEWS : list string :=
  [ "v_daily_service_metrics"; "v_airport_traffic_daily";
    "v_service_efficiency"; "v_rush_hour_pickups"; "v_pu_zone_daily" ].

(** The world of a build: the parts each glob pattern matches, and the
    output file, which holds a database when it exists.  The connection
    of [main] is the output file: a statement that succeeds is in the
    file. *)
Record world := { w_files : string -> list part; w_out : option database }.

Definition set_out (w : world) (o : option database) : world :=
  {| w_files := w_files w; w_out := o |}.

(** Computations of the build: they read and change the world and may
    raise; the world at the raise is kept. *)
Definition M (A : Type) : Type := world -> result A * world.

#[export] Instance M_ret : MRet M := fun A a w => (Ok a, w).

Definition raise {A} (e : error) : M A := fun w => (Err e, w).

#[export] Instance M_bind : MBind M := fun A B k m w =>
  match m w with
  | (Ok a, w') => k a w'
  | (Err e, w') => (Err e, w')
  end.

Fixpoint for_each {A} (l : list A) (body : A -> M unit) : M unit :=
  match l with
  | [] => mret tt
  | a :: l' => body a;; for_each l' body
  end.

(** [os.path.join(DATA_DIR, pattern_rel)] for a relative pattern. *)
Definition path_join (dir rel : string) : string := dir +:+ "/" +:+ rel.

(** [glob.glob(pat)] *)
Definition glob (pat : string) : M (list part) := fun w => (Ok (w_files w pat), w).

Definition resolve_source (pattern_rel : string) : M (string * nat) :=
  let pat := path_join DATA_DIR pattern_rel in
  parts ← glob pat;
  if is_empty parts
  then raise (FileNotFoundError ("No parquet files match: " +:+ pat))
  else mret (pat, length parts).

(** [if os.path.exists(OUT_DB): os.remove(OUT_DB)] *)
Definition remove_out : M unit := fun w => (Ok tt, set_out w None).

(** [duckdb.connect(OUT_DB)]: opens the file, creating an empty database
    when there is none. *)
Definition connect : M unit :=
  fun w => (Ok tt, set_out w (Some (default empty_db (w_out w)))).

Definition con_execute (s : stmt) : M unit :=
  fun w =>
    match w_out w with
    | None => (Err EngineError, w)
    | Some db =>
        match execute (w_files w) db s with
        | Ok db' => (Ok tt, set_out w (Some db'))
        | Err e => (Err e, w)
        end
    end.

(** [PRAGMA table_info('tbl')], the column names. *)
Definition table_info (tbl : string) : M (list string) :=
  fun w =>
    match w_out w ≫= (fun db => tables db !! tbl) with
    | Some t => (Ok (t_cols t), w)
    | None => (Err EngineError, w)
    end.

(** A query that reads the given views and changes nothing. *)
Definition query_views (names : list string) : M unit :=
  fun w =>
    match w_out w with
    | Some db =>
        if forallb (fun n => bool_decide (is_Some (views db !! n))) names
        then (Ok tt, w) else (Err EngineError, w)
    | None => (Err EngineError, w)
    end.

(** [try: con.execute(sql) except Exception: pass] *)
Definition try_idx (s : stmt) : M unit :=
  fun w => let '(_, w') := con_execute s w in (Ok tt, w').

(** The body of the loop of lines 67-74.  The row count of line 73 is
    only printed. *)
Definition create_table (tbl rel_glob : string) : M unit :=
  '(pat, nfiles) ← resolve_source rel_glob;
  con_execute (CreateTableUnion tbl pat).

Definition create_tables : M unit :=
  for_each FILES (fun '(tbl, rel_glob) => create_table tbl rel_glob).

(** The body of the loop of lines 77-96. *)
Definition create_view (tbl : string) : M unit :=
  cols ← table_info tbl;
  let date_expr := build_date_expr cols in
  let has_pd := existsb (fun c => String.eqb (lower c) "pickup_date") cols in
  if has_pd
  then con_execute (CreateView tbl true date_expr)
  else con_execute (CreateView tbl false date_expr).

Definition create_views : M unit :=
  for_each FILES (fun '(tbl, _) => create_view tbl).

(** The body of the loop of lines 103-107. *)
Definition index_body (tbl : string) : M unit :=
  try_idx (CreateIndex ("idx_" +:+ tbl +:+ "_date") tbl "pickup_date");;
  try_idx (CreateIndex ("idx_" +:+ tbl +:+ "_svc") tbl "service_type").

Definition create_indexes : M unit := for_each INDEX_TABLES index_body.

(** [main()]; what it prints is left out. *)
Definition main : M unit :=
  remove_out;;
  connect;;
  create_tables;;
  create_views;;
  create_indexes;;
  query_views SPAN_VIEWS;;
  mret tt.

End Build.

(** ** The second builder, [duckdb/build_duckdb.py] *)

Module BuildV2.

Import Str Resolver Sql Build.

Definition SRC_TRIPS : string := "_cache/streamlit_trips_agg/*.parquet".
Definition SRC_FLAGS : string := "_cache/streamlit_fhvhv_flags/*.parquet".
Definition SRC_DIMZONE : string := "_cache/dim_taxi_zone/*.parquet".

Definition newline : string := String "010"%char EmptyString.

(** Lines 25-36: every missing pattern is collected before the raise. *)
Definition ensure_inputs_exist : M unit :=
  fun w =>
    let missing :=
      foldl (fun missing g =>
               if is_empty (w_files w g) then missing ++ [g] else missing)
            [] [SRC_TRIPS; SRC_FLAGS; SRC_DIMZONE] in
    if is_empty missing then (Ok tt, w)
    else (Err (FileNotFoundError
                 ("Missing Parquet inputs. Make sure you downloaded the exports:"
                  +:+ newline +:+ "  - "
                  +:+ join (newline +:+ "  - ") missing)), w).

(** [main()]; the directory of the output file and what is printed are
    left out. *)
Definition main : M unit :=
  remove_out;;
  ensure_inputs_exist;;
  connect;;
  con_execute (CreateTableScan "trips_agg" SRC_TRIPS);;
  con_execute (CreateTableScan "fhvhv_flags_daily" SRC_FLAGS);;
  con_execute (CreateTableScan "dim_taxi_zone" SRC_DIMZONE);;
  con_execute (CreateIndex "idx_trips_date" "trips_agg" "pickup_date");;
  con_execute (CreateIndex "idx_trips_service" "trips_agg" "service_type");;
  mret tt.

(** The patterns that [ensure_inputs_exist] finds without a part, in the
    order it tries them. *)
Definition missing_inputs (w : world) : list string :=
  List.filter (fun g => is_empty (w_files w g))
    [SRC_TRIPS; SRC_FLAGS; SRC_DIMZONE].

End BuildV2.

(** ** The dashboard filter of [streamlit_app.py] *)

Module Dashboard.

Import Str Resolver.

(** A cell of a frame; dates are days since the epoch. *)
Inductive cell :=
  | CNull
  | CDate (days : Z)
  | CTimestamp (days : Z) (nanos : Z)
  | CText (s : string)
  | CNum (n : Z).

(** A frame: its column labels and its rows, each row a list of cells
    under the labels.  Labels are taken to be distinct, as they are in
    the frames read from the views. *)
Record frame := { columns : list string; rows : list (list cell) }.

(** [df.empty]: no row or no column. *)
Definition empty (df : frame) : bool :=
  is_empty (columns df) || is_empty (rows df).

(** The position of the column labelled [name]. *)
Fixpoint col_index (name : string) (cols : list string) : option nat :=
  match cols with
  | [] => None
  | c :: cols' =>
      if String.eqb c name then Some O else S <$> col_index name cols'
  end.

Definition cell_at (i : nat) (r : list cell) : cell := default CNull (r !! i).

Section Filter.

(** [pd.to_datetime(x, errors=coerce)] on one cell: a day and the time
    within it, or NaT. *)
Variable to_datetime : cell -> option (Z * Z).

(** The cell that [.dt.date] leaves: a date, or NaT. *)
Definition date_cell (c : cell) : cell :=
  match to_datetime c with
  | Some (d, _) => CDate d
  | None => CNull
  end.

(** [(x >= start_date) & (x <= end_date)] on a cell; a null compares
    false. *)
Definition in_range (start_date end_date : Z) (c : cell) : bool :=
  match c with
  | CDate d => (start_date <=? d)%Z && (d <=? end_date)%Z
  | _ => false
  end.

(** [x.isin(services)] on a cell. *)
Definition isin (services : list string) (c : cell) : bool :=
  match c with
  | CText s => bool_decide (s ∈ services)
  | _ => false
  end.

Definition with_rows (df : frame) (rs : list (list cell)) : frame :=
  {| columns := columns df; rows := rs |}.

(** Lines 126-130. *)
Definition date_stage (out : frame) (start_date end_date : Z) : frame :=
  match col_index "pickup_date" (columns out) with
  | Some i =>
      let pd_dates := map (fun r => to_datetime (cell_at i r)) (rows out) in
      if existsb (fun d => bool_decide (is_Some d)) pd_dates then
        let out := with_rows out
             (map (fun r => <[i := date_cell (cell_at i r)]> r) (rows out)) in
        with_rows out
          (List.filter (fun r => in_range start_date end_date (cell_at i r))
             (rows out))
      else out
  | None => out
  end.

(** Lines 133-134. *)
Definition service_stage (out : frame) (services : list string) : frame :=
  match col_index "service_type" (columns out) with
  | Some j =>
      if negb (is_empty services)
      then with_rows out
             (List.filter (fun r => isin services (cell_at j r)) (rows out))
      else out
  | None => out
  end.

Definition filter_by_date_service (df : frame) (start_date end_date : Z)
    (services : list string) : frame :=
  if empty df then df
  else
    let out := df in
    let out := date_stage out start_date end_date in
    let out := service_stage out services in
    out.

(** The pickup_date column is missing, or no cell of it converts to a
    date. *)
Definition no_dates (df : frame) : Prop :=
  match col_index "pickup_date" (columns df) with
  | None => True
  | Some i => ∀ r, r ∈ rows df → to_datetime (cell_at i r) = None
  end.

End Filter.

End Dashboard.

(** ** Worked examples *)

Module Scenarios.

Import Str Resolver Sql Build.

(** An engine whose TRY_CAST keeps the day of a DATE or of a TIMESTAMP
    and makes NULL of anything else. *)
#[export] Instance demo_caster : Caster.
Proof.
  refine {| try_cast_date := fun v =>
              match v with
              | VDate d => Some d
              | VTimestamp d _ => Some d
              | _ => None
              end;
            strptime_ymd := fun _ => None |}; reflexivity.
Defined.

(** Two rows, of 2024-07-01 and 2024-07-02 (days 19905 and 19906). *)
Definition trips_table : table :=
  {| t_cols := ["Pickup_Date"; "service_type"; "trips"];
     t_rows := [ [VDate 19905; VText "yellow"; VInt 10];
                 [VDate 19906; VText "green"; VInt 7] ] |}.

Definition trips_db : database :=
  with_table empty_db "pu_zone_daily" trips_table.

Definition trips_world : world :=
  {| w_files := fun _ => []; w_out := Some trips_db |}.

Definition trips_view : view :=
  {| v_source := "pu_zone_daily"; v_exclude := true;
     v_expr := Coalesce [CastDate "Pickup_Date"] |}.

Definition trips_view_table : table :=
  {| t_cols := ["service_type"; "trips"; "pickup_date"];
     t_rows := [ [VText "yellow"; VInt 10; VDate 19905];
                 [VText "green"; VInt 7; VDate 19906] ] |}.

(** The column named by the three characters a, double quote, d. *)
Definition quote_name : string := String "a" (String dquote "date").

End Scenarios.

Module BuildScenarios.

Import Str Resolver Sql Build Scenarios.

Definition zone_part : part :=
  {| p_path := "data/01_dim_taxi_zone/part-0.parquet";
     p_data := {| t_cols := ["LocationID"; "Zone"];
                  t_rows := [ [VInt 1; VText "Newark Airport"] ] |} |}.

(** The output of an earlier build. *)
Definition stale_db : database := with_table empty_db "stale" trips_table.

(** Only the first dataset has a part; an earlier output file exists. *)
Definition zones_only : world :=
  {| w_files := fun pat =>
       if String.eqb pat "data/01_dim_taxi_zone/*.parquet"
       then [zone_part] else [];
     w_out := Some stale_db |}.

(** No input of the second builder has a part; an earlier output file
    exists. *)
Definition no_inputs : world :=
  {| w_files := fun _ => []; w_out := Some stale_db |}.

(** A database whose table payment_mix has a date and no service type. *)
Definition payment_db : database :=
  with_table empty_db "payment_mix"
    {| t_cols := ["pickup_date"; "payment_type"; "trips"];
       t_rows := [ [VDate 19905; VText "card"; VInt 3] ] |}.

Definition payment_world : world :=
  {| w_files := fun _ => []; w_out := Some payment_db |}.

(** Every dataset has one part with a date, a count and no service
    type. *)
Definition plain_part : part :=
  {| p_path := "part-0.parquet";
     p_data := {| t_cols := ["tpep_pickup_datetime"; "trips"];
                  t_rows := [ [VTimestamp 19905 0; VInt 3] ] |} |}.

Definition full_world : world :=
  {| w_files := fun _ => [plain_part]; w_out := None |}.

End BuildScenarios.

Module DashboardScenarios.

Import Dashboard.

(** A conversion that keeps dates and timestamps and makes NaT of
    anything else. *)
Definition demo_to_datetime (c : cell) : option (Z * Z) :=
  match c with
  | CDate d => Some (d, 0%Z)
  | CTimestamp d t => Some (d, t)
  | _ => None
  end.

Definition daily_frame : frame :=
  {| columns := ["pickup_date"; "service_type"; "trips"];
     rows := [ [CTimestamp 19905 0; CText "yellow"; CNum 10];
               [CTimestamp 19906 0; CText "green"; CNum 7];
               [CNull; CText "yellow"; CNum 1];
               [CTimestamp 19950 0; CText "fhv"; CNum 2] ] |}.

(** A frame whose pickup_date is null in every row. *)
Definition undated_frame : frame :=
  {| columns := ["pickup_date"; "service_type"; "trips"];
     rows := [ [CNull; CText "yellow"; CNum 10];
               [CNull; CText "green"; CNum 7] ] |}.

End DashboardScenarios.

Module MoreScenarios.

Import Str Resolver Sql Build Scenarios BuildScenarios.

(** A table whose raw pickup_date is a text that is no date, beside a
    well-formed service_date. *)
Definition fallback_table : table :=
  {| t_cols := ["pickup_date"; "service_date"; "trips"];
     t_rows := [ [VText "not-a-date"; VDate 19905; VInt 4] ] |}.

Definition fallback_db : database :=
  with_table empty_db "payment_mix" fallback_table.

Definition fallback_world : world :=
  {| w_files := fun _ => []; w_out := Some fallback_db |}.

(** A database whose one table has no date-like column. *)
Definition zones_db : database :=
  with_table empty_db "dim_taxi_zone" (p_data zone_part).

Definition zones_world : world :=
  {| w_files := fun _ => []; w_out := Some zones_db |}.

(** Inputs of the second builder: every pattern has the same part, with
    a date and a service type. *)
Definition agg_part : part :=
  {| p_path := "part-0.parquet";
     p_data := {| t_cols := ["pickup_date"; "service_type"; "trips"];
                  t_rows := [ [VDate 19905; VText "yellow"; VInt 10] ] |} |}.

Definition agg_world : world :=
  {| w_files := fun _ => [agg_part]; w_out := None |}.

(** What the scan of [agg_part] gives: its row with the path added. *)
Definition agg_table : table :=
  {| t_cols := ["pickup_date"; "service_type"; "trips"; "filename"];
     t_rows := [ [VDate 19905; VText "yellow"; VInt 10;
                  VText "part-0.parquet"] ] |}.

(** Every pattern has one part, which has a column filename of its
    own. *)
Definition named_part : part :=
  {| p_path := "part-0.parquet";
     p_data := {| t_cols := ["pickup_date"; "service_type"; "filename"];
                  t_rows := [ [VDate 19905; VText "yellow";
                               VText "2024-07.csv"] ] |} |}.

Definition named_world : world :=
  {| w_files := fun _ => [named_part]; w_out := None |}.

(** Every pattern has two parts, the second without the service type. *)
Definition short_part : part :=
  {| p_path := "part-1.parquet";
     p_data := {| t_cols := ["pickup_date"; "trips"];
                  t_rows := [ [VDate 19906; VInt 7] ] |} |}.

Definition ragged_world : world :=
  {| w_files := fun _ => [agg_part; short_part]; w_out := None |}.

(** The trips have no service type; the other inputs are as in
    [agg_world]. *)
Definition dated_part : part :=
  {| p_path := "part-0.parquet";
     p_data := {| t_cols := ["pickup_date"; "trips"];
                  t_rows := [ [VDate 19905; VInt 10] ] |} |}.

Definition dated_table : table :=
  {| t_cols := ["pickup_date"; "trips"; "filename"];
     t_rows := [ [VDate 19905; VInt 10; VText "part-0.parquet"] ] |}.

Definition dated_world : world :=
  {| w_files := fun pat =>
       if String.eqb pat "_cache/streamlit_trips_agg/*.parquet"
       then [dated_part] else [agg_part];
     w_out := None |}.

End MoreScenarios.

(** * Properties *)

(** ** Strings *)

Module StrFacts.

Import Str.

Lemma sapp_nil_l (s : string) : "" +:+ s = s.
Proof. reflexivity. Qed.

Lemma sapp_cons (a : ascii) (s t : string) :
  String a s +:+ t = String a (s +:+ t).
Proof. reflexivity. Qed.

Lemma sapp_nil_r (s : string) : s +:+ "" = s.
Proof. induction s as [|a s IH]; [reflexivity|]. rewrite sapp_cons. by f_equal. Qed.

Lemma sapp_assoc (s t u : string) : (s +:+ t) +:+ u = s +:+ (t +:+ u).
Proof.
  induction s as [|a s IH]; [reflexivity|].
  rewrite !sapp_cons. by f_equal.
Qed.

Lemma prefix_spec (p s : string) :
  String.prefix p s = true ↔ ∃ t, s = p +:+ t.
Proof.
  revert s. induction p as [|a p IH]; intros s.
  - destruct s; simpl; split; eauto.
  - destruct s as [|b s]; simpl.
    + split; [done|]. intros [t Ht]. by rewrite sapp_cons in Ht.
    + destruct (ascii_dec a b) as [->|Hne].
      * rewrite IH. split.
        -- intros [t ->]. exists t. by rewrite sapp_cons.
        -- intros [t Ht]. rewrite sapp_cons in Ht. exists t. congruence.
      * split; [done|]. intros [t Ht]. rewrite sapp_cons in Ht. congruence.
Qed.

Lemma contains_nil (n : string) : contains n "" = String.prefix n "".
Proof. unfold contains. by rewrite orb_false_r. Qed.

Lemma contains_cons (n : string) (c : ascii) (h : string) :
  contains n (String c h) = String.prefix n (String c h) || contains n h.
Proof. reflexivity. Qed.

(** [contains] is the substring test. *)
Lemma contains_spec (n h : string) :
  contains n h = true ↔ ∃ pre post, h = pre +:+ n +:+ post.
Proof.
  induction h as [|c h IH].
  - rewrite contains_nil. split.
    + intros [t Ht]%prefix_spec. by exists "", t.
    + intros (pre & post & Hh). apply prefix_spec.
      destruct pre; [by exists post|by rewrite sapp_cons in Hh].
  - rewrite contains_cons, orb_true_iff, IH. split.
    + intros [[t Ht]%prefix_spec|(pre & post & ->)].
      * by exists "", t.
      * exists (String c pre), post. by rewrite sapp_cons.
    + intros (pre & post & Hh). destruct pre as [|a pre].
      * left. apply prefix_spec. by exists post.
      * right. rewrite sapp_cons in Hh. injection Hh as _ ->. by exists pre, post.
Qed.

Lemma endswith_nil (suf : string) : endswith "" suf = String.eqb "" suf.
Proof. unfold endswith. by rewrite orb_false_r. Qed.

Lemma endswith_cons (c : ascii) (s suf : string) :
  endswith (String c s) suf = String.eqb (String c s) suf || endswith s suf.
Proof. reflexivity. Qed.

(** [endswith] is the suffix test. *)
Lemma endswith_spec (s suf : string) :
  endswith s suf = true ↔ ∃ pre, s = pre +:+ suf.
Proof.
  induction s as [|c s IH].
  - rewrite endswith_nil, String.eqb_eq. split.
    + intros <-. by exists "".
    + intros [pre Hp]. destruct pre; [done|by rewrite sapp_cons in Hp].
  - rewrite endswith_cons, orb_true_iff, String.eqb_eq, IH. split.
    + intros [<-|[pre ->]]; [by exists ""|].
      exists (String c pre). by rewrite sapp_cons.
    + intros [pre Hp]. destruct pre as [|a pre].
      * left. by rewrite sapp_nil_l in Hp.
      * right. rewrite sapp_cons in Hp. injection Hp as _ ->. by exists pre.
Qed.

Lemma has_char_app (ch : ascii) (s t : string) :
  has_char ch (s +:+ t) = has_char ch s || has_char ch t.
Proof.
  induction s as [|a s IH]; [reflexivity|].
  rewrite sapp_cons. simpl. by rewrite IH, orb_assoc.
Qed.

Lemma slength_app (s t : string) :
  String.length (s +:+ t) = String.length s + String.length t.
Proof.
  induction s as [|a s IH]; [reflexivity|].
  rewrite sapp_cons. simpl. by rewrite IH.
Qed.

End StrFacts.

(** ** The resolver *)

Module ResolverFacts.

Import Str Resolver StrFacts.

Lemma is_generic_spec (c : string) :
  is_generic c = true ↔ generic_name (lower c).
Proof.
  unfold is_generic, generic_name.
  rewrite !orb_true_iff, !contains_spec, endswith_spec, bool_decide_eq_true.
  rewrite !elem_of_union, !elem_of_singleton, !elem_of_cons, elem_of_nil.
  tauto.
Qed.

Lemma is_date_key_spec (c : string) :
  is_date_key c = true ↔ date_key_name (lower c).
Proof.
  unfold is_date_key, date_key_name.
  by rewrite orb_true_iff, String.eqb_eq, endswith_spec.
Qed.

(** Every name of tier 3 is a name of tier 2: it holds the word date. *)
Lemma date_key_is_generic (c : string) :
  is_date_key c = true → is_generic c = true.
Proof.
  rewrite is_date_key_spec, is_generic_spec.
  intros [Hc|[pre Hc]]; left.
  - exists "", "_key". by rewrite Hc.
  - exists (pre +:+ "_"), "_key". by rewrite Hc, sapp_assoc.
Qed.

Lemma lower_map_snoc (cols : list string) (c : string) :
  lower_map (cols ++ [c]) = <[lower c := c]> (lower_map cols).
Proof. unfold lower_map. by rewrite foldl_snoc. Qed.

(** The dictionary maps a lower-cased name to a column with that name. *)
Lemma lower_map_lookup (cols : list string) (k c : string) :
  lower_map cols !! k = Some c → c ∈ cols ∧ lower c = k.
Proof.
  induction cols as [|x cols IH] using rev_ind.
  - unfold lower_map. simpl. by rewrite lookup_empty.
  - rewrite lower_map_snoc, lookup_insert. case_decide as Hk.
    + intros [= <-]. split; [|done].
      apply elem_of_app. right. by apply list_elem_of_singleton.
    + intros Hc. apply IH in Hc as [Hc Hl]. split; [|done].
      apply elem_of_app. by left.
Qed.

Lemma lower_map_is_Some (cols : list string) (k : string) :
  is_Some (lower_map cols !! k) ↔ k ∈ map lower cols.
Proof.
  induction cols as [|x cols IH] using rev_ind.
  - unfold lower_map. simpl. rewrite lookup_empty. split.
    + by intros [? ?].
    + by intros ?%elem_of_nil.
  - rewrite lower_map_snoc, lookup_insert, map_app, elem_of_app. simpl.
    rewrite list_elem_of_singleton, <- IH. case_decide as Hk.
    + split; [by right|by eauto].
    + split; [by left|]. intros [?|?]; [done|congruence].
Qed.

Lemma foldl_step1 (m : gmap string string) (acc l : list string) :
  foldl (step1 m) acc l
  = acc ++ map cast1 (omap (fun cname => m !! lower cname) l).
Proof.
  revert acc. induction l as [|cn l IH]; intros acc; simpl.
  - by rewrite app_nil_r.
  - rewrite IH. unfold step1. destruct (m !! lower cn); simpl; [|done].
    by rewrite <- app_assoc.
Qed.

Lemma foldl_step2 (acc cols : list string) :
  foldl step2 acc cols = acc ++ map cast2 (List.filter is_generic cols).
Proof.
  revert acc. induction cols as [|c cols IH]; intros acc; simpl.
  - by rewrite app_nil_r.
  - rewrite IH. unfold step2. destruct (is_generic c); simpl; [|done].
    by rewrite <- app_assoc.
Qed.

Lemma foldl_step3 (acc cols : list string) :
  foldl step3 acc cols
  = acc ++ map strptime_cast (List.filter is_date_key cols).
Proof.
  revert acc. induction cols as [|c cols IH]; intros acc; simpl.
  - by rewrite app_nil_r.
  - rewrite IH. unfold step3. destruct (is_date_key c); simpl; [|done].
    by rewrite <- app_assoc.
Qed.

Lemma filter_date_key_nil (cols : list string) :
  List.filter is_generic cols = [] → List.filter is_date_key cols = [].
Proof.
  induction cols as [|c cols IH]; simpl; [done|].
  destruct (is_date_key c) eqn:Hk.
  - by rewrite (date_key_is_generic c Hk).
  - destruct (is_generic c); [done|auto].
Qed.

(** The list [exprs] of line 59, tier by tier.  Tier 3 never adds to it. *)
Lemma candidates_eq (cols : list string) :
  candidates cols =
    match matches1 cols with
    | [] => map cast2 (List.filter is_generic cols)
    | ms => map cast1 ms
    end.
Proof.
  unfold candidates. rewrite foldl_step1. fold (matches1 cols). simpl.
  destruct (matches1 cols) as [|m ms] eqn:Hm; simpl; [|done].
  rewrite foldl_step2. simpl.
  destruct (List.filter is_generic cols) as [|g gs] eqn:Hg; simpl; [|done].
  rewrite foldl_step3. simpl. by rewrite (filter_date_key_nil cols Hg).
Qed.

(** *** Lower-casing: the code against the words of the specification *)

Lemma letter_pairs_lower (a b : ascii) :
  (a, b) ∈ letter_pairs → b = lower_ascii a.
Proof.
  unfold letter_pairs. cbn [CAPITALS SMALLS list_ascii_of_string combine].
  rewrite !elem_of_cons, elem_of_nil.
  intros H; repeat destruct H as [[= -> ->]|H]; done.
Qed.

Lemma not_capital_lower (a : ascii) :
  a ∉ list_ascii_of_string CAPITALS → lower_ascii a = a.
Proof.
  intros Hno. destruct a as [[] [] [] [] [] [] [] []];
    first [reflexivity
          | exfalso; apply Hno; apply (bool_decide_unpack _); exact I].
Qed.

Lemma lower_ascii_lowered (a : ascii) : lowered_char a (lower_ascii a).
Proof.
  destruct a as [[] [] [] [] [] [] [] []];
    first [left; apply (bool_decide_unpack _); exact I
          | right; split; [apply (bool_decide_unpack _); exact I|reflexivity]].
Qed.

Lemma lowered_char_iff (a b : ascii) : lowered_char a b ↔ b = lower_ascii a.
Proof.
  split.
  - intros [Hp|[Hno ->]]; [by apply letter_pairs_lower|].
    by rewrite not_capital_lower.
  - intros ->. apply lower_ascii_lowered.
Qed.

(** The lower-casing of the code is the one the specification means. *)
Lemma lowered_iff (s low : string) : lowered s low ↔ low = lower s.
Proof.
  split.
  - induction 1 as [|a b s low Hc _ IH]; [done|].
    cbn [lower]. apply lowered_char_iff in Hc. by rewrite Hc, IH.
  - intros ->. induction s as [|a s IH]; cbn [lower]; constructor; [|done].
    apply lower_ascii_lowered.
Qed.

Lemma lowered_lower (s : string) : lowered s (lower s).
Proof. by apply lowered_iff. Qed.

End ResolverFacts.

(** ** The reader of the engine on what the resolver writes *)

Module SqlFacts.

Import Str Resolver Sql StrFacts ResolverFacts.

Lemma strip_app (p s : string) : strip p (p +:+ s) = Some s.
Proof.
  induction p as [|a p IH]; [by destruct s|].
  rewrite sapp_cons. simpl. by rewrite Ascii.eqb_refl.
Qed.

Lemma read_bare_app (o : string) (c : ascii) (r : string) :
  all_ident o = true → ident_char c = false →
  read_bare (o +:+ String c r) = (o, String c r).
Proof.
  intros Ho Hc. induction o as [|a o IH].
  - rewrite sapp_nil_l. cbn [read_bare]. by rewrite Hc.
  - cbn [all_ident] in Ho. apply andb_true_iff in Ho as [Ha Ho].
    rewrite sapp_cons. cbn [read_bare]. by rewrite Ha, (IH Ho).
Qed.

Lemma read_quoted_app (o : string) (c : ascii) (r : string) :
  has_char dquote o = false → Ascii.eqb c dquote = false →
  read_quoted (o +:+ String dquote (String c r)) = Some (o, String c r).
Proof.
  intros Ho Hc. induction o as [|a o IH].
  - rewrite sapp_nil_l. cbn [read_quoted]. by rewrite Ascii.eqb_refl, Hc.
  - cbn [has_char] in Ho. apply orb_false_iff in Ho as [Ha Ho].
    rewrite sapp_cons. cbn [read_quoted]. rewrite Ascii.eqb_sym, Ha.
    by rewrite (IH Ho).
Qed.

Lemma ident_start_not_dquote (a : ascii) :
  ident_start a = true → Ascii.eqb a dquote = false.
Proof.
  destruct (Ascii.eqb a dquote) eqn:He; [|done].
  apply Ascii.eqb_eq in He as ->. done.
Qed.

Lemma read_ident_bare (o : string) (c : ascii) (r : string) :
  plain o = true → ident_char c = false →
  read_ident (o +:+ String c r) = Some (o, String c r).
Proof.
  intros Ho Hc. destruct o as [|a o]; [done|].
  unfold plain in Ho. apply andb_true_iff in Ho as [Ha Ho].
  rewrite <- (read_bare_app (String a o) c r Ho Hc).
  rewrite sapp_cons. unfold read_ident.
  by rewrite (ident_start_not_dquote a Ha), Ha.
Qed.

Lemma read_ident_quoted (o : string) (c : ascii) (r : string) :
  has_char dquote o = false → Ascii.eqb c dquote = false →
  read_ident (String dquote (o +:+ String dquote (String c r)))
  = Some (o, String c r).
Proof.
  intros Ho Hc. unfold read_ident. rewrite Ascii.eqb_refl.
  by apply read_quoted_app.
Qed.

(** The text [TRY_CAST(t.x AS DATE)] reads as the cast of the column
    that [x] reads as. *)
Lemma renders_try_cast (x o : string) :
  (∀ r, read_ident (x +:+ " AS DATE)" +:+ r) = Some (o, " AS DATE)" +:+ r)) →
  renders (CastDate o) (try_cast ("t." +:+ x)).
Proof.
  intros Hx r. unfold try_cast, read_cand.
  rewrite !sapp_assoc, strip_app. cbn [mbind option_bind].
  change (strip "STRPTIME(CAST(t." ("t." +:+ x +:+ " AS DATE)" +:+ r))
    with (@None string).
  rewrite strip_app. cbn [mbind option_bind]. rewrite Hx.
  cbn [mbind option_bind]. by rewrite strip_app.
Qed.

Lemma renders_dq_ref (o : string) :
  has_char dquote o = false → renders (CastDate o) (try_cast (dq_ref o)).
Proof.
  intros Ho. unfold dq_ref. apply renders_try_cast. intros r.
  rewrite sapp_cons, sapp_assoc, sapp_cons, sapp_nil_l.
  by apply read_ident_quoted.
Qed.

Lemma renders_bare_ref (o : string) :
  plain o = true → renders (CastDate o) (try_cast (bare_ref o)).
Proof.
  intros Ho. unfold bare_ref. apply renders_try_cast. intros r.
  by apply read_ident_bare.
Qed.

Lemma plain_not_special (o : string) : plain o = true → any_special o = false.
Proof.
  intros Ho. assert (Hall : all_ident o = true).
  { destruct o; [done|]. unfold plain in Ho. by apply andb_true_iff in Ho as [_ ?]. }
  clear Ho. unfold any_special. simpl. rewrite orb_false_r.
  induction o as [|a o IH]; [done|].
  simpl in Hall. apply andb_true_iff in Hall as [Ha Ho].
  specialize (IH Ho). apply orb_false_iff in IH as [H1 IH].
  apply orb_false_iff in IH as [H2 H3].
  simpl. rewrite H1, H2, H3, !orb_false_r.
  destruct a as [[] [] [] [] [] [] [] []]; done.
Qed.

Lemma renders_cast2 (o : string) : readable o → renders (CastDate o) (cast2 o).
Proof.
  intros [Hq Ho]. unfold cast2, quoted2.
  destruct (any_special o) eqn:Hs.
  - by apply renders_dq_ref.
  - destruct Ho as [?|Ho]; [done|]. by apply renders_bare_ref.
Qed.

Lemma renders_cast1 (o : string) : readable o → renders (CastDate o) (cast1 o).
Proof.
  intros [Hq Ho]. unfold cast1, quoted1.
  destruct (String.eqb (lower o) "date" || any_special o) eqn:Hs.
  - by apply renders_dq_ref.
  - apply orb_false_iff in Hs as [_ Hs].
    destruct Ho as [Ho|Ho]; [congruence|]. by apply renders_bare_ref.
Qed.

Lemma renders_nonempty (c : cand) (s : string) : renders c s → (1 ≤ String.length s)%nat.
Proof.
  intros Hs. destruct s; [|simpl; lia].
  specialize (Hs ""). done.
Qed.

Lemma join_cons2 (sep x y : string) (l : list string) :
  join sep (x :: y :: l) = x +:+ sep +:+ join sep (y :: l).
Proof. reflexivity. Qed.

Lemma join_length (cs : list cand) (ss : list string) :
  Forall2 renders cs ss → (length cs ≤ String.length (join ", " ss +:+ ")"))%nat.
Proof.
  induction 1 as [|c s cs ss Hs Hrest IH]; [simpl; lia|].
  apply renders_nonempty in Hs.
  destruct ss as [|s' ss].
  - apply Forall2_nil_inv_r in Hrest as ->. unfold join. simpl.
    rewrite slength_app. lia.
  - rewrite join_cons2, !sapp_assoc, !slength_app.
    rewrite slength_app in IH. simpl in *. lia.
Qed.

Lemma read_cands_join (cs : list cand) (ss : list string) (fuel : nat) :
  Forall2 renders cs ss → cs ≠ [] → (length cs ≤ fuel)%nat →
  read_cands fuel (join ", " ss +:+ ")") = Some cs.
Proof.
  intros Hr. revert fuel.
  induction Hr as [|c s cs ss Hs Hrest IH]; intros fuel Hne Hf; [done|].
  destruct fuel as [|fuel]; [simpl in Hf; lia|]. simpl in Hf.
  destruct ss as [|s' ss].
  - apply Forall2_nil_inv_r in Hrest as ->. unfold join. simpl.
    by rewrite Hs.
  - rewrite join_cons2, !sapp_assoc. cbn [read_cands]. rewrite Hs.
    cbn [mbind option_bind]. rewrite strip_app. rewrite IH; [done| |lia].
    by inversion Hrest.
Qed.

(** A COALESCE over texts of candidates reads as those candidates. *)
Lemma parse_coalesce (cs : list cand) (ss : list string) :
  Forall2 renders cs ss → cs ≠ [] →
  parse_date_expr ("COALESCE(" +:+ join ", " ss +:+ ")") = Some (Coalesce cs).
Proof.
  intros Hr Hne. unfold parse_date_expr.
  change (String.eqb ("COALESCE(" +:+ join ", " ss +:+ ")") "NULL::DATE")
    with false.
  rewrite strip_app. simpl.
  rewrite (read_cands_join cs ss _ Hr Hne); [done|].
  by apply join_length.
Qed.

End SqlFacts.

(** ** What the resolver returns, tier by tier *)

Module ResolverTheorems.

Import Str Resolver Sql StrFacts ResolverFacts SqlFacts.

Lemma not_elem_by_decide (x : string) (l : list string) :
  bool_decide (x ∈ l) = false → x ∉ l.
Proof. apply bool_decide_eq_false. Qed.

Lemma candidates_lower (cn : string) : cn ∈ DATE_CANDIDATES → lower cn = cn.
Proof.
  unfold DATE_CANDIDATES. rewrite !elem_of_cons, elem_of_nil.
  intros H; repeat destruct H as [->|H]; done.
Qed.

Lemma ident_start_lower (c : ascii) : ident_start (lower_ascii c) = ident_start c.
Proof. destruct c as [[] [] [] [] [] [] [] []]; reflexivity. Qed.

Lemma ident_char_lower (c : ascii) : ident_char (lower_ascii c) = ident_char c.
Proof. destruct c as [[] [] [] [] [] [] [] []]; reflexivity. Qed.

Lemma all_ident_lower (o : string) : all_ident (lower o) = all_ident o.
Proof.
  induction o as [|a o IH]; [done|].
  cbn [lower all_ident]. by rewrite ident_char_lower, IH.
Qed.

Lemma plain_lower (o : string) : plain (lower o) = plain o.
Proof.
  destruct o as [|a o]; [done|]. unfold plain. cbn [lower].
  rewrite ident_start_lower. f_equal. apply (all_ident_lower (String a o)).
Qed.

Lemma plain_readable (o : string) : plain o = true → readable o.
Proof.
  intros Ho. split; [|by right].
  pose proof (plain_not_special o Ho) as Hs. unfold any_special in Hs.
  cbn [existsb] in Hs.
  apply orb_false_iff in Hs as [_ Hs]. apply orb_false_iff in Hs as [_ Hs].
  by apply orb_false_iff in Hs as [Hs _].
Qed.

(** The names of tier 1 are plain identifiers, in any case. *)
Lemma tier1_name_plain (o : string) : lower o ∈ DATE_CANDIDATES → plain o = true.
Proof.
  rewrite <- plain_lower. unfold DATE_CANDIDATES.
  rewrite !elem_of_cons, elem_of_nil.
  intros H; repeat destruct H as [->|H]; done.
Qed.

Lemma matches1_elem (cols : list string) (m : string) :
  m ∈ matches1 cols → m ∈ cols ∧ lower m ∈ DATE_CANDIDATES.
Proof.
  unfold matches1. rewrite list_elem_of_omap. intros (cn & Hcn & Hm).
  apply lower_map_lookup in Hm as [Hm Hl]. split; [done|].
  by rewrite Hl, (candidates_lower cn Hcn).
Qed.

Lemma matches_lower (cols ks : list string) :
  (∀ k, k ∈ ks → lower k = k) →
  map lower (omap (fun cn => lower_map cols !! lower cn) ks)
  = List.filter (fun cn => bool_decide (cn ∈ map lower cols)) ks.
Proof.
  induction ks as [|k ks IH]; intros Hks; [done|].
  cbn [omap list_omap List.filter]. rewrite (Hks k) by apply list_elem_of_here.
  assert (Hrest : ∀ k', k' ∈ ks → lower k' = k')
    by (intros k' Hk'; apply Hks; by apply list_elem_of_further).
  destruct (lower_map cols !! k) as [m|] eqn:Hm.
  - rewrite bool_decide_eq_true_2
      by (apply lower_map_is_Some; by rewrite Hm).
    apply lower_map_lookup in Hm as [_ Hl]. cbn [map].
    by rewrite Hl, (IH Hrest).
  - rewrite bool_decide_eq_false_2; [by apply IH|].
    intros Hin%lower_map_is_Some. rewrite Hm in Hin. by destruct Hin.
Qed.

Lemma matches1_lower (cols : list string) :
  map lower (matches1 cols)
  = List.filter (fun cn => bool_decide (cn ∈ map lower cols)) DATE_CANDIDATES.
Proof. apply matches_lower, candidates_lower. Qed.

Lemma matches1_nonempty (cols : list string) (c : string) :
  c ∈ cols → lower c ∈ DATE_CANDIDATES → matches1 cols ≠ [].
Proof.
  intros Hc Hl Hnil.
  assert (Hin : In (lower c)
            (List.filter (fun cn => bool_decide (cn ∈ map lower cols))
               DATE_CANDIDATES)).
  { apply filter_In. split; [by apply list_elem_of_In|].
    apply bool_decide_eq_true_2, list_elem_of_In, in_map.
    by apply list_elem_of_In. }
  rewrite <- matches1_lower, Hnil in Hin. done.
Qed.

Lemma matches1_empty (cols : list string) :
  (∀ c, c ∈ cols → lower c ∉ DATE_CANDIDATES) → matches1 cols = [].
Proof.
  intros Hno. destruct (matches1 cols) as [|m ms] eqn:Hm; [done|].
  assert (Hin : m ∈ matches1 cols) by (rewrite Hm; apply list_elem_of_here).
  apply matches1_elem in Hin as [Hc Hl]. by destruct (Hno m Hc).
Qed.

Lemma renders_map (f : string → string) (ms : list string) :
  (∀ m, m ∈ ms → renders (CastDate m) (f m)) →
  Forall2 renders (map CastDate ms) (map f ms).
Proof.
  induction ms as [|m ms IH]; intros Hms; [constructor|].
  cbn [map]. constructor.
  - apply Hms, list_elem_of_here.
  - apply IH. intros m' Hm'. by apply Hms, list_elem_of_further.
Qed.

Lemma build_of_candidates (cols : list string) (e : string) (es : list string) :
  candidates cols = e :: es →
  build_date_expr cols = "COALESCE(" +:+ join ", " (e :: es) +:+ ")".
Proof. intros He. unfold build_date_expr. by rewrite He. Qed.

Lemma tier1_build (cols : list string) :
  matches1 cols ≠ [] →
  build_date_expr cols
  = "COALESCE(" +:+ join ", " (map cast1 (matches1 cols)) +:+ ")".
Proof.
  intros Hne. pose proof (candidates_eq cols) as Hcand.
  destruct (matches1 cols) as [|m ms]; [done|].
  by apply build_of_candidates.
Qed.

(** The engine reads a tier-1 expression as the COALESCE of the casts of
    the tier-1 matches. *)
Lemma tier1_parse (cols : list string) :
  matches1 cols ≠ [] →
  parse_date_expr (build_date_expr cols)
  = Some (Coalesce (map CastDate (matches1 cols))).
Proof.
  intros Hne. rewrite (tier1_build cols Hne). apply parse_coalesce.
  - apply renders_map. intros m [_ Hm]%matches1_elem.
    by apply renders_cast1, plain_readable, tier1_name_plain.
  - by destruct (matches1 cols).
Qed.

(** C1: whenever some column matches a tier-1 name without regard to
    case, the resolver returns the COALESCE of the casts to DATE of the
    tier-1 matches: one column for each name of [DATE_CANDIDATES] that
    has a match, in the order of that list, and no other candidate.  The
    engine reads the text as the COALESCE of these casts, whose value is
    that of the first candidate that is not NULL. *)
Theorem tier1_wins (cols : list string) :
  (∃ c, c ∈ cols ∧ lower c ∈ DATE_CANDIDATES) →
  ∃ ms : list string,
    ms ≠ []
    ∧ (∀ m, m ∈ ms → m ∈ cols)
    ∧ map lower ms
      = List.filter (fun cn => bool_decide (cn ∈ map lower cols)) DATE_CANDIDATES
    ∧ build_date_expr cols
      = "COALESCE("
        +:+ join ", " (map (fun m => try_cast (quoted1 m)) ms) +:+ ")"
    ∧ parse_date_expr (build_date_expr cols) = Some (Coalesce (map CastDate ms)).
Proof.
  intros (c & Hc & Hl). exists (matches1 cols).
  pose proof (matches1_nonempty cols c Hc Hl) as Hne.
  split; [done|]. split; [by intros m [? _]%matches1_elem|].
  split; [apply matches1_lower|].
  split; [by apply tier1_build|by apply tier1_parse].
Qed.

Lemma tier1_wins_witness :
  ∃ ms : list string,
    ms ≠ []
    ∧ (∀ m, m ∈ ms → m ∈ ["trips"; "Service_Date"; "DATE"])
    ∧ map lower ms
      = List.filter
          (fun cn => bool_decide (cn ∈ map lower ["trips"; "Service_Date"; "DATE"]))
          DATE_CANDIDATES
    ∧ build_date_expr ["trips"; "Service_Date"; "DATE"]
      = "COALESCE("
        +:+ join ", " (map (fun m => try_cast (quoted1 m)) ms) +:+ ")"
    ∧ parse_date_expr (build_date_expr ["trips"; "Service_Date"; "DATE"])
      = Some (Coalesce (map CastDate ms)).
Proof.
  apply (tier1_wins ["trips"; "Service_Date"; "DATE"]).
  exists "DATE". split; [|vm_compute; apply list_elem_of_further, list_elem_of_here].
  apply list_elem_of_further, list_elem_of_further, list_elem_of_here.
Defined.

(** The engine reads a tier-2 expression as the COALESCE of the casts of
    the columns that pass the test of tier 2. *)
Lemma tier2_build (cols : list string) :
  matches1 cols = [] → List.filter is_generic cols ≠ [] →
  build_date_expr cols
  = "COALESCE(" +:+ join ", " (map cast2 (List.filter is_generic cols)) +:+ ")".
Proof.
  intros Hm Hne. pose proof (candidates_eq cols) as Hcand.
  rewrite Hm in Hcand.
  destruct (List.filter is_generic cols) as [|g gs]; [done|].
  by apply build_of_candidates.
Qed.

Lemma cast2_text (c : string) :
  cast2 c
  = "TRY_CAST(t."
    +:+ (if any_special c then String dquote (c +:+ String dquote "") else c)
    +:+ " AS DATE)".
Proof. unfold cast2, quoted2. by destruct (any_special c). Qed.

(** C6: when no column matches a tier-1 name and some column has a
    lower-cased name that holds date or datetime, is dt, ds or day, or
    ends with _date, the resolver returns the COALESCE of the casts to
    DATE of exactly these columns, in the order of the column list.
    Lower-cased is meant as the specification has it, a capital letter
    going to its small letter.  The text of each cast is TRY_CAST(t.c AS
    DATE), with c between double quotes when it holds a space, a hyphen
    or a double quote; and when the selected names are readable the
    engine reads the text as the COALESCE of the casts to DATE of the
    selected columns, in column order. *)
Theorem tier2_in_column_order (cols : list string) :
  (∀ c low, c ∈ cols → lowered c low → low ∉ DATE_CANDIDATES) →
  (∃ c low, c ∈ cols ∧ lowered c low ∧ generic_name low) →
  (∀ c low, lowered c low → (is_generic c = true ↔ generic_name low))
  ∧ List.filter is_generic cols ≠ []
  ∧ build_date_expr cols
    = "COALESCE("
      +:+ join ", "
            (map (fun c =>
                    "TRY_CAST(t."
                    +:+ (if any_special c
                         then String dquote (c +:+ String dquote "")
                         else c)
                    +:+ " AS DATE)")
                 (List.filter is_generic cols))
      +:+ ")"
  ∧ ((∀ c, c ∈ cols → is_generic c = true → readable c) →
     parse_date_expr (build_date_expr cols)
     = Some (Coalesce (map CastDate (List.filter is_generic cols)))).
Proof.
  intros Hno (c & low & Hc & Hlow & Hg).
  apply lowered_iff in Hlow as ->.
  assert (Hspec : ∀ c low, lowered c low →
                    (is_generic c = true ↔ generic_name low)).
  { intros c' low' ->%lowered_iff. apply is_generic_spec. }
  assert (Hm : matches1 cols = []).
  { apply matches1_empty. intros c' Hc'. apply (Hno c' _ Hc'), lowered_lower. }
  assert (Hne : List.filter is_generic cols ≠ []).
  { intros Hnil.
    assert (Hin : In c (List.filter is_generic cols)).
    { apply filter_In. split; [by apply list_elem_of_In|].
      by apply is_generic_spec. }
    by rewrite Hnil in Hin. }
  split; [done|]. split; [done|].
  rewrite (tier2_build cols Hm Hne). split.
  - by rewrite (map_ext _ _ cast2_text).
  - intros Hr. apply parse_coalesce.
    + apply renders_map. intros g Hg'.
      apply list_elem_of_In, filter_In in Hg' as [Hin Hgen].
      apply renders_cast2, Hr; [by apply list_elem_of_In|done].
    + by destruct (List.filter is_generic cols).
Qed.

Lemma tier2_in_column_order_witness :
  List.filter is_generic ["zone"; "Trip_Date"; "DS"; "my day_date"]
  = ["Trip_Date"; "DS"; "my day_date"]
  ∧ build_date_expr ["zone"; "Trip_Date"; "DS"; "my day_date"]
    = "COALESCE(TRY_CAST(t.Trip_Date AS DATE), TRY_CAST(t.DS AS DATE), TRY_CAST(t."
      +:+ String dquote ("my day_date" +:+ String dquote " AS DATE))")
  ∧ parse_date_expr (build_date_expr ["zone"; "Trip_Date"; "DS"; "my day_date"])
    = Some (Coalesce [CastDate "Trip_Date"; CastDate "DS";
                      CastDate "my day_date"]).
Proof.
  destruct (tier2_in_column_order ["zone"; "Trip_Date"; "DS"; "my day_date"])
    as (_ & _ & Htext & Hparse).
  - intros c low Hc ->%lowered_iff. rewrite !elem_of_cons, elem_of_nil in Hc.
    repeat destruct Hc as [->|Hc]; try done;
      apply not_elem_by_decide; reflexivity.
  - exists "DS", "ds". split; [|split].
    + apply list_elem_of_further, list_elem_of_further, list_elem_of_here.
    + repeat constructor; (left; apply (bool_decide_unpack _); exact I).
    + right; right; left. apply list_elem_of_further, list_elem_of_here.
  - split; [reflexivity|]. split; [exact Htext|]. apply Hparse.
    intros c Hc Hgen. rewrite !elem_of_cons, elem_of_nil in Hc.
    repeat destruct Hc as [->|Hc]; try done;
      (split; [reflexivity|]); (by left) || (by right).
Defined.

(** C7: when no column matches any of the three tiers the resolver
    returns the typed NULL; and on every column list it returns either
    the typed NULL or a COALESCE of at least one candidate: there is no
    input on which it fails. *)
Theorem no_match_null (cols : list string) :
  ((∀ c, c ∈ cols →
      (lower c ∉ DATE_CANDIDATES) ∧ (¬ generic_name (lower c))
      ∧ (¬ date_key_name (lower c))) →
   build_date_expr cols = "NULL::DATE")
  ∧ (build_date_expr cols = "NULL::DATE"
     ∨ ∃ e es, build_date_expr cols
               = "COALESCE(" +:+ join ", " (e :: es) +:+ ")").
Proof.
  split.
  - intros Hno. unfold build_date_expr. rewrite candidates_eq.
    rewrite (matches1_empty cols) by (intros c Hc; apply (Hno c Hc)).
    assert (Hg : List.filter is_generic cols = []).
    { destruct (List.filter is_generic cols) as [|g gs] eqn:Hg; [done|].
      assert (Hin : In g (List.filter is_generic cols)) by (rewrite Hg; by left).
      apply filter_In in Hin as [Hin Hgen].
      apply list_elem_of_In in Hin. apply is_generic_spec in Hgen.
      by destruct (Hno g Hin) as (_ & ? & _). }
    by rewrite Hg.
  - destruct (candidates cols) as [|e es] eqn:He.
    + left. unfold build_date_expr. by rewrite He.
    + right. exists e, es. by apply build_of_candidates.
Qed.

Lemma no_match_null_witness :
  build_date_expr ["zone"; "trips"; "Borough"] = "NULL::DATE".
Proof.
  apply (no_match_null ["zone"; "trips"; "Borough"]).
  intros c Hc. rewrite !elem_of_cons, elem_of_nil in Hc.
  rewrite <- is_generic_spec, <- is_date_key_spec.
  repeat destruct Hc as [->|Hc]; try done;
    (split; [apply not_elem_by_decide; reflexivity|split; by vm_compute]).
Defined.

(** No candidate of the resolver is a YYYYMMDD parse: each is the cast
    to DATE of a column of tier 1 or of tier 2. *)
Lemma candidates_are_casts (cols : list string) (e : string) :
  e ∈ candidates cols →
  ∃ o, o ∈ cols ∧ (e = try_cast (quoted1 o) ∨ e = try_cast (quoted2 o)).
Proof.
  rewrite candidates_eq. destruct (matches1 cols) as [|m ms] eqn:Hm.
  - intros (o & <- & Ho)%list_elem_of_In%in_map_iff. exists o.
    apply filter_In in Ho as [Ho _]. split; [by apply list_elem_of_In|by right].
  - rewrite <- Hm. intros (o & <- & Ho)%list_elem_of_In%in_map_iff. exists o.
    apply list_elem_of_In, matches1_elem in Ho as [Ho _]. split; [done|by left].
Qed.

(** C2: on the column list with the one column date_key, the resolver
    returns the plain cast to DATE of tier 2, not the YYYYMMDD parse of
    tier 3: the name holds the word date, which tier 2 takes first. *)
Theorem date_key_taken_by_tier2 :
  build_date_expr ["date_key"] = "COALESCE(TRY_CAST(t.date_key AS DATE))"
  ∧ build_date_expr ["zone"; "Order_Date_Key"]
    = "COALESCE(TRY_CAST(t.Order_Date_Key AS DATE))"
  ∧ parse_date_expr (build_date_expr ["date_key"])
    = Some (Coalesce [CastDate "date_key"]).
Proof. repeat split; reflexivity. Qed.

End ResolverTheorems.

(** ** Rows of a view *)

Module SelectFacts.

Import Str Resolver Sql StrFacts.

Lemma same_name_refl (a : string) : same_name a a = true.
Proof. apply String.eqb_refl. Qed.

Lemma same_name_sym (a b : string) : same_name a b = same_name b a.
Proof. apply String.eqb_sym. Qed.

Lemma same_name_trans (a b c : string) :
  same_name a b = true → same_name b c = true → same_name a c = true.
Proof. unfold same_name. rewrite !String.eqb_eq. congruence. Qed.

Lemma has_col_elem (cols : list string) (c : string) :
  c ∈ cols → has_col cols c = true.
Proof.
  intros Hc. apply existsb_exists. exists c.
  split; [by apply list_elem_of_In|apply same_name_refl].
Qed.

Lemma lookup_map {A B} (f : A → B) (l : list A) (i : nat) :
  map f l !! i = f <$> l !! i.
Proof.
  revert i. induction l as [|a l IH]; intros [|i]; try done. apply IH.
Qed.

Lemma combine_nil_r {A B} (l : list A) : combine l (@nil B) = [].
Proof. by destruct l. Qed.

Lemma combine_app_eq {A B} (l1 l2 : list A) (r1 r2 : list B) :
  length l1 = length r1 →
  combine (l1 ++ l2) (r1 ++ r2) = combine l1 r1 ++ combine l2 r2.
Proof.
  revert r1. induction l1 as [|a l1 IH]; intros [|b r1] Hlen; try done.
  simpl. f_equal. apply IH. simpl in Hlen. lia.
Qed.

Lemma find_app {A} (f : A → bool) (l1 l2 : list A) :
  find f (l1 ++ l2)
  = match find f l1 with Some x => Some x | None => find f l2 end.
Proof.
  induction l1 as [|a l1 IH]; [done|]. simpl. by destruct (f a).
Qed.

Lemma find_filter {A} (f k : A → bool) (l : list A) :
  (∀ x, f x = true → k x = true) → find f (List.filter k l) = find f l.
Proof.
  intros Hfk. induction l as [|a l IH]; [done|]. simpl.
  destruct (k a) eqn:Hk; simpl.
  - by rewrite IH.
  - destruct (f a) eqn:Hf; [|done]. apply Hfk in Hf. congruence.
Qed.

Lemma find_filter_none {A} (f k : A → bool) (l : list A) :
  (∀ x, f x = true → k x = false) → find f (List.filter k l) = None.
Proof.
  intros Hfk. induction l as [|a l IH]; [done|]. simpl.
  destruct (k a) eqn:Hk; [|done]. simpl.
  destruct (f a) eqn:Hf; [|done]. apply Hfk in Hf. congruence.
Qed.

(** The kept cells, paired with the kept columns, are the kept pairs. *)
Lemma combine_project (excl : bool) (cols : list string) (r : row) :
  combine (List.filter (keep_col excl) cols) (project excl cols r)
  = List.filter (fun p => keep_col excl (fst p)) (combine cols r).
Proof.
  unfold project. revert r. induction cols as [|c cols IH]; intros r; [done|].
  destruct r as [|v r]; [simpl; by rewrite combine_nil_r|]. simpl.
  destruct (keep_col excl c); simpl; by rewrite IH.
Qed.

Lemma project_length (excl : bool) (cols : list string) (r : row) :
  length r = length cols →
  length (List.filter (keep_col excl) cols) = length (project excl cols r).
Proof.
  unfold project. revert r. induction cols as [|c cols IH]; intros r Hlen;
    [by destruct r|].
  destruct r as [|v r]; [done|]. simpl in *.
  destruct (keep_col excl c); simpl; rewrite (IH r); lia.
Qed.

Lemma view_pairs (excl : bool) (cols : list string) (r : row) (v : value) :
  length r = length cols →
  combine (view_cols excl cols) (project excl cols r ++ [v])
  = List.filter (fun p => keep_col excl (fst p)) (combine cols r)
    ++ [("pickup_date", v)].
Proof.
  intros Hlen. unfold view_cols.
  rewrite combine_app_eq by by apply project_length.
  by rewrite combine_project.
Qed.

(** A column that is not called pickup_date has in the view's row the
    cell it has in the table's row. *)
Lemma view_lookup_other (excl : bool) (cols : list string) (r : row)
    (v : value) (c : string) :
  length r = length cols → same_name c "pickup_date" = false →
  lookup_col (view_cols excl cols) (project excl cols r ++ [v]) c
  = lookup_col cols r c.
Proof.
  intros Hlen Hc. unfold lookup_col. rewrite view_pairs by done.
  rewrite find_app, find_filter.
  - destruct (find _ (combine cols r)); [done|].
    cbn [find fst]. by rewrite same_name_sym, Hc.
  - intros [c' v'] Hsame. cbn [fst] in *. unfold keep_col.
    destruct (same_name c' "pickup_date") eqn:Hpd; [|by rewrite andb_false_r].
    rewrite same_name_sym in Hsame.
    by rewrite (same_name_trans c c' "pickup_date" Hsame Hpd) in Hc.
Qed.

(** The cell called pickup_date of a view's row is the computed one,
    when the raw column is excluded or when there is none. *)
Lemma view_lookup_pickup_date (excl : bool) (cols : list string) (r : row)
    (v : value) :
  length r = length cols →
  excl = true ∨ has_col cols "pickup_date" = false →
  lookup_col (view_cols excl cols) (project excl cols r ++ [v]) "pickup_date"
  = Some v.
Proof.
  intros Hlen Hcase. unfold lookup_col. rewrite view_pairs by done.
  rewrite find_app.
  assert (Hnone : find (fun p => same_name (fst p) "pickup_date")
             (List.filter (fun p => keep_col excl (fst p)) (combine cols r))
           = None).
  { destruct Hcase as [->|Hno].
    - apply find_filter_none. intros [c' v'] Hsame. cbn [fst] in *.
      unfold keep_col. by rewrite Hsame.
    - destruct (find _ _) as [[c' v']|] eqn:Hf; [|done].
      apply find_some in Hf as [Hin Hsame]. cbn [fst] in Hsame.
      apply filter_In in Hin as [Hin _]. apply in_combine_l in Hin.
      assert (has_col cols "pickup_date" = true); [|congruence].
      apply existsb_exists. by exists c'. }
  by rewrite Hnone.
Qed.

(** The view has one column called pickup_date, the last one. *)
Lemma view_cols_one_pickup_date (excl : bool) (cols : list string) :
  excl = true ∨ has_col cols "pickup_date" = false →
  List.filter (fun c => same_name c "pickup_date") (view_cols excl cols)
  = ["pickup_date"].
Proof.
  intros Hcase. unfold view_cols. rewrite List.filter_app.
  replace (List.filter _ (List.filter (keep_col excl) cols)) with (@nil string);
    [done|].
  symmetry. induction cols as [|c cols IH]; [done|]. simpl.
  assert (Hrest : excl = true ∨ has_col cols "pickup_date" = false).
  { destruct Hcase as [?|Hno]; [by left|right].
    unfold has_col in *. simpl in Hno. by apply orb_false_iff in Hno as [_ ?]. }
  unfold keep_col at 1.
  destruct (same_name c "pickup_date") eqn:Hc.
  - destruct Hcase as [->|Hno]; [simpl; by apply IH|].
    unfold has_col in Hno. simpl in Hno. by rewrite Hc in Hno.
  - rewrite andb_false_r. simpl. rewrite Hc. by apply IH.
Qed.

Lemma view_has_other (excl : bool) (cols : list string) (c : string) :
  same_name c "pickup_date" = false →
  has_col (view_cols excl cols) c = has_col cols c.
Proof.
  intros Hc. unfold has_col, view_cols. rewrite existsb_app. cbn [existsb].
  rewrite same_name_sym, Hc, !orb_false_r.
  induction cols as [|c' cols IH]; [done|]. simpl. unfold keep_col at 1.
  destruct (same_name c' "pickup_date") eqn:Hpd.
  - destruct excl; simpl; rewrite IH; [|done].
    destruct (same_name c' c) eqn:Hsame; [|done].
    rewrite same_name_sym in Hsame.
    by rewrite (same_name_trans c c' "pickup_date" Hsame Hpd) in Hc.
  - rewrite andb_false_r. simpl. by rewrite IH.
Qed.

End SelectFacts.

(** ** The views of the build *)

Module ViewFacts.

Import Str Resolver Sql Build StrFacts ResolverFacts SqlFacts.
Import ResolverTheorems SelectFacts.

(** The loop body of lines 77-96 sends one CREATE VIEW, with EXCLUDE
    exactly when the table has a column called pickup_date. *)
Lemma create_view_unfold (w : world) (db : database) (tbl : string) (t : table) :
  w_out w = Some db → tables db !! tbl = Some t →
  create_view tbl w
  = con_execute (CreateView tbl (has_col (t_cols t) "pickup_date")
                   (build_date_expr (t_cols t))) w.
Proof.
  intros Hw Ht. unfold create_view, mbind, M_bind, table_info.
  rewrite Hw. cbn [mbind option_bind]. rewrite Ht.
  change (existsb (fun c => String.eqb (lower c) "pickup_date") (t_cols t))
    with (has_col (t_cols t) "pickup_date").
  by destruct (has_col (t_cols t) "pickup_date").
Qed.

Lemma con_execute_view_ok (w : world) (db : database) (tbl : string)
    (t : table) (excl : bool) (de : string) (e : dexpr) :
  w_out w = Some db → tables db !! tbl = Some t →
  parse_date_expr de = Some e → binds (t_cols t) e = true →
  negb excl || has_col (t_cols t) "pickup_date" = true →
  con_execute (CreateView tbl excl de) w
  = (Ok tt, set_out w (Some (with_view db ("v_" +:+ tbl)
       {| v_source := tbl; v_exclude := excl; v_expr := e |}))).
Proof.
  intros Hw Ht He Hb Hx. unfold con_execute, execute.
  by rewrite Hw, Ht, He, Hb, Hx.
Qed.

Lemma con_execute_view_inv (w w' : world) (db : database) (tbl : string)
    (t : table) (excl : bool) (de : string) :
  w_out w = Some db → tables db !! tbl = Some t →
  con_execute (CreateView tbl excl de) w = (Ok tt, w') →
  ∃ e, parse_date_expr de = Some e
       ∧ w' = set_out w (Some (with_view db ("v_" +:+ tbl)
                {| v_source := tbl; v_exclude := excl; v_expr := e |})).
Proof.
  intros Hw Ht. unfold con_execute, execute. rewrite Hw, Ht.
  destruct (parse_date_expr de) as [e|]; [|done].
  destruct (binds (t_cols t) e && _); [|done].
  intros [= <-]. by exists e.
Qed.

Section WithCaster.

Context `{Caster}.

Lemma select_with_view (db : database) (name : string) (v : view) (t : table) :
  tables db !! v_source v = Some t →
  select_view (with_view db name v) name
  = Some {| t_cols := view_cols (v_exclude v) (t_cols t);
            t_rows := map (view_row v (t_cols t)) (t_rows t) |}.
Proof.
  intros Ht. unfold select_view, with_view. cbn [views tables].
  rewrite lookup_insert_eq. cbn [mbind option_bind]. by rewrite Ht.
Qed.

Lemma lookup_col_same (cols : list string) (r : row) (a b : string) :
  lower a = lower b → lookup_col cols r a = lookup_col cols r b.
Proof. intros Hab. unfold lookup_col, same_name. by rewrite Hab. Qed.

End WithCaster.

Lemma has_col_pickup_date (cols : list string) :
  has_col cols "pickup_date" = true →
  ∃ c, c ∈ cols ∧ lower c = "pickup_date".
Proof.
  intros (c & Hc & Hs)%existsb_exists. exists c.
  split; [by apply list_elem_of_In|]. by apply String.eqb_eq in Hs.
Qed.

(** With a column called pickup_date, the first candidate of tier 1 is
    that column. *)
Lemma matches1_head_pickup_date (cols : list string) :
  has_col cols "pickup_date" = true →
  ∃ m0 ms, matches1 cols = m0 :: ms ∧ lower m0 = "pickup_date".
Proof.
  intros (c & Hc & Hl)%has_col_pickup_date.
  pose proof (matches1_lower cols) as Hm. unfold DATE_CANDIDATES in Hm.
  cbn [List.filter] in Hm. rewrite bool_decide_eq_true_2 in Hm.
  - destruct (matches1 cols) as [|m0 ms]; [done|].
    exists m0, ms. split; [done|]. by injection Hm.
  - rewrite <- Hl. apply list_elem_of_In, in_map. by apply list_elem_of_In.
Qed.

Lemma binds_matches1 (cols : list string) :
  binds cols (Coalesce (map CastDate (matches1 cols))) = true.
Proof.
  cbn [binds]. apply forallb_forall. intros x (m & <- & Hm)%in_map_iff.
  cbn [cand_col]. apply has_col_elem.
  by apply list_elem_of_In, matches1_elem in Hm as [? _].
Qed.

(** On a table whose column names are readable, the expression of the
    resolver is accepted by the engine and names columns of the table. *)
Lemma build_parses (cols : list string) :
  (∀ c, c ∈ cols → readable c) →
  ∃ e, parse_date_expr (build_date_expr cols) = Some e ∧ binds cols e = true.
Proof.
  intros Hr. destruct (matches1 cols) as [|m ms] eqn:Hm.
  - pose proof (candidates_eq cols) as Hcand. rewrite Hm in Hcand.
    destruct (List.filter is_generic cols) as [|g gs] eqn:Hg.
    + exists NullDate. unfold build_date_expr. by rewrite Hcand.
    + assert (Hin : ∀ c, c ∈ g :: gs → c ∈ cols).
      { intros c Hc. rewrite <- Hg in Hc.
        apply list_elem_of_In, filter_In in Hc as [Hc _].
        by apply list_elem_of_In. }
      exists (Coalesce (map CastDate (g :: gs))). split.
      * rewrite (build_of_candidates cols _ _ Hcand).
        apply (parse_coalesce (map CastDate (g :: gs)) (map cast2 (g :: gs)));
          [|done].
        apply renders_map. intros c Hc. by apply renders_cast2, Hr, Hin.
      * cbn [binds]. apply forallb_forall. intros x (c & <- & Hc)%in_map_iff.
        cbn [cand_col]. by apply has_col_elem, Hin, list_elem_of_In.
  - exists (Coalesce (map CastDate (matches1 cols))). split.
    + apply tier1_parse. by rewrite Hm.
    + apply binds_matches1.
Qed.

(** The loop body of lines 77-96 succeeds on such a table. *)
Lemma create_view_succeeds (w : world) (db : database) (tbl : string)
    (t : table) :
  w_out w = Some db → tables db !! tbl = Some t →
  (∀ c, c ∈ t_cols t → readable c) →
  ∃ db', create_view tbl w = (Ok tt, set_out w (Some db'))
         ∧ tables db' = tables db
         ∧ is_Some (views db' !! ("v_" +:+ tbl)).
Proof.
  intros Hw Ht Hr. destruct (build_parses (t_cols t) Hr) as (e & He & Hb).
  rewrite (create_view_unfold w db tbl t Hw Ht).
  eexists. split; [|split].
  - apply (con_execute_view_ok w db tbl t _ _ e Hw Ht He Hb).
    by destruct (has_col (t_cols t) "pickup_date").
  - done.
  - cbn [views with_view]. by rewrite lookup_insert_eq.
Qed.

Section Coalesce.

Context `{Caster}.

(** COALESCE takes the first candidate that is not NULL: candidates that
    are NULL are passed over, and nothing after the first hit counts. *)
Lemma coalesce_first_non_null (cols : list string) (r : row)
    (before after : list cand) (c : cand) (d : Z) :
  (∀ b, b ∈ before → eval_cand cols r b = None) →
  eval_cand cols r c = Some d →
  eval_coalesce cols r (before ++ c :: after) = Some d.
Proof.
  intros Hb Hc. induction before as [|b before IH]; cbn [app eval_coalesce].
  - by rewrite Hc.
  - rewrite (Hb b) by apply list_elem_of_here.
    apply IH. intros b' Hb'. by apply Hb, list_elem_of_further.
Qed.

End Coalesce.

End ViewFacts.

Module ViewTheorems.

Import Str Resolver Sql Build StrFacts ResolverFacts SqlFacts.
Import ResolverTheorems SelectFacts ViewFacts Scenarios.

(** C4: for a table with a column called pickup_date, the loop body
    creates the view; the view has every column of the table but that
    one, and then one column pickup_date, the only one of that name;
    it has as many rows as the table; and a row whose raw pickup_date is
    a date has the same date as pickup_date in the view's row of the
    same rank. *)
Theorem view_replaces_pickup_date `{Caster} (w : world) (db : database)
    (tbl : string) (t : table) :
  w_out w = Some db → tables db !! tbl = Some t → table_ok t →
  has_col (t_cols t) "pickup_date" = true →
  ∃ db' vt,
    create_view tbl w = (Ok tt, set_out w (Some db'))
    ∧ select_view db' ("v_" +:+ tbl) = Some vt
    ∧ t_cols vt
      = List.filter (fun c => negb (same_name c "pickup_date")) (t_cols t)
        ++ ["pickup_date"]
    ∧ List.filter (fun c => same_name c "pickup_date") (t_cols vt)
      = ["pickup_date"]
    ∧ length (t_rows vt) = length (t_rows t)
    ∧ ∀ i r d,
        t_rows t !! i = Some r →
        lookup_col (t_cols t) r "pickup_date" = Some (VDate d) →
        ∃ r', t_rows vt !! i = Some r'
              ∧ lookup_col (t_cols vt) r' "pickup_date" = Some (VDate d).
Proof.
  intros Hw Ht Hok Hpd.
  destruct (matches1_head_pickup_date (t_cols t) Hpd) as (m0 & ms & Hm & Hm0).
  assert (Hne : matches1 (t_cols t) ≠ []) by by rewrite Hm.
  set (v := {| v_source := tbl; v_exclude := true;
               v_expr := Coalesce (map CastDate (matches1 (t_cols t))) |}).
  exists (with_view db ("v_" +:+ tbl) v), 
    {| t_cols := view_cols true (t_cols t);
       t_rows := map (view_row v (t_cols t)) (t_rows t) |}.
  split.
  { rewrite (create_view_unfold w db tbl t Hw Ht), Hpd.
    apply (con_execute_view_ok w db tbl t true _ _ Hw Ht).
    - by apply tier1_parse.
    - apply binds_matches1.
    - by rewrite Hpd. }
  split; [by apply (select_with_view db ("v_" +:+ tbl) v t)|].
  split; [done|].
  split; [apply view_cols_one_pickup_date; by left|].
  split; [cbn [t_rows]; by rewrite length_map|].
  intros i r d Hr Hd. exists (view_row v (t_cols t) r).
  cbn [t_rows t_cols]. rewrite lookup_map, Hr. split; [done|].
  assert (Hlen : length r = length (t_cols t)).
  { unfold table_ok in Hok. rewrite Forall_lookup in Hok. by apply (Hok i). }
  unfold view_row. cbn [v_exclude v_expr v].
  rewrite view_lookup_pickup_date by (done || by left).
  f_equal. rewrite Hm. cbn [map eval_dexpr eval_coalesce eval_cand].
  rewrite (lookup_col_same (t_cols t) r m0 "pickup_date") by done.
  rewrite Hd. cbn [mbind option_bind]. by rewrite try_cast_date_of_date.
Qed.

Lemma view_replaces_pickup_date_witness :
  create_view "pu_zone_daily" trips_world
  = (Ok tt, set_out trips_world
              (Some (with_view trips_db "v_pu_zone_daily" trips_view)))
  ∧ select_view (with_view trips_db "v_pu_zone_daily" trips_view)
      "v_pu_zone_daily" = Some trips_view_table
  ∧ ∃ db' vt,
      create_view "pu_zone_daily" trips_world
      = (Ok tt, set_out trips_world (Some db'))
      ∧ select_view db' ("v_" +:+ "pu_zone_daily") = Some vt
      ∧ t_cols vt
        = List.filter (fun c => negb (same_name c "pickup_date"))
            (t_cols trips_table) ++ ["pickup_date"]
      ∧ List.filter (fun c => same_name c "pickup_date") (t_cols vt)
        = ["pickup_date"]
      ∧ length (t_rows vt) = length (t_rows trips_table)
      ∧ ∀ i r d,
          t_rows trips_table !! i = Some r →
          lookup_col (t_cols trips_table) r "pickup_date" = Some (VDate d) →
          ∃ r', t_rows vt !! i = Some r'
                ∧ lookup_col (t_cols vt) r' "pickup_date" = Some (VDate d).
Proof.
  split; [reflexivity|]. split; [reflexivity|].
  apply (view_replaces_pickup_date trips_world trips_db "pu_zone_daily"
           trips_table).
  - reflexivity.
  - reflexivity.
  - repeat constructor.
  - reflexivity.
Defined.

(** C5: when the loop body has created the view of a table, the view
    has as many rows as the table, in the same order; apart from
    pickup_date it has the columns of the table, and every such column
    has in each row of the view the cell it has in the row of the table. *)
Theorem view_keeps_rows `{Caster} (w w' : world) (db : database)
    (tbl : string) (t : table) :
  w_out w = Some db → tables db !! tbl = Some t → table_ok t →
  create_view tbl w = (Ok tt, w') →
  ∃ db' vt,
    w_out w' = Some db' ∧ tables db' = tables db
    ∧ select_view db' ("v_" +:+ tbl) = Some vt
    ∧ length (t_rows vt) = length (t_rows t)
    ∧ has_col (t_cols vt) "pickup_date" = true
    ∧ (∀ c, same_name c "pickup_date" = false →
            has_col (t_cols vt) c = has_col (t_cols t) c)
    ∧ (∀ i r, t_rows t !! i = Some r →
         ∃ r', t_rows vt !! i = Some r'
           ∧ ∀ c, same_name c "pickup_date" = false →
                  lookup_col (t_cols vt) r' c = lookup_col (t_cols t) r c).
Proof.
  intros Hw Ht Hok Hrun.
  rewrite (create_view_unfold w db tbl t Hw Ht) in Hrun.
  apply (con_execute_view_inv w w' db tbl t _ _ Hw Ht) in Hrun as (e & _ & ->).
  set (v := {| v_source := tbl;
               v_exclude := has_col (t_cols t) "pickup_date"; v_expr := e |}).
  exists (with_view db ("v_" +:+ tbl) v),
    {| t_cols := view_cols (v_exclude v) (t_cols t);
       t_rows := map (view_row v (t_cols t)) (t_rows t) |}.
  split; [done|]. split; [done|].
  split; [by apply (select_with_view db ("v_" +:+ tbl) v t)|].
  split; [cbn [t_rows]; by rewrite length_map|].
  split.
  { cbn [t_cols]. unfold has_col, view_cols. rewrite existsb_app.
    cbn [existsb]. by rewrite same_name_refl, orb_true_r. }
  split; [intros c Hc; by apply view_has_other|].
  intros i r Hr. exists (view_row v (t_cols t) r).
  cbn [t_rows t_cols]. rewrite lookup_map, Hr. split; [done|].
  intros c Hc. apply view_lookup_other; [|done].
  unfold table_ok in Hok. rewrite Forall_lookup in Hok. by apply (Hok i).
Qed.

Lemma view_keeps_rows_witness :
  ∃ db' vt,
    w_out (set_out trips_world
             (Some (with_view trips_db "v_pu_zone_daily" trips_view)))
    = Some db'
    ∧ tables db' = tables trips_db
    ∧ select_view db' ("v_" +:+ "pu_zone_daily") = Some vt
    ∧ length (t_rows vt) = length (t_rows trips_table)
    ∧ has_col (t_cols vt) "pickup_date" = true
    ∧ (∀ c, same_name c "pickup_date" = false →
            has_col (t_cols vt) c = has_col (t_cols trips_table) c)
    ∧ (∀ i r, t_rows trips_table !! i = Some r →
         ∃ r', t_rows vt !! i = Some r'
           ∧ ∀ c, same_name c "pickup_date" = false →
                  lookup_col (t_cols vt) r' c
                  = lookup_col (t_cols trips_table) r c).
Proof.
  apply (view_keeps_rows trips_world _ trips_db "pu_zone_daily" trips_table).
  - reflexivity.
  - reflexivity.
  - repeat constructor.
  - reflexivity.
Defined.

End ViewTheorems.

(** ** The build: missing inputs and index failures *)

Module BuildFacts.

Import Str Resolver Sql Build StrFacts.

Lemma set_out_same (w : world) (db : database) :
  w_out w = Some db → set_out w (Some db) = w.
Proof. destruct w as [files out]. simpl. by intros ->. Qed.

(** The body of the loop of lines 67-74: it raises when the pattern has
    no part, and creates the table otherwise. *)
Lemma create_table_run (w : world) (db : database) (tbl rel : string) :
  w_out w = Some db →
  create_table tbl rel w
  = match w_files w (path_join DATA_DIR rel) with
    | [] =>
        (Err (FileNotFoundError
                ("No parquet files match: " +:+ path_join DATA_DIR rel)), w)
    | parts =>
        (Ok tt, set_out w (Some (with_table db tbl (read_parquet parts))))
    end.
Proof.
  intros Hw. unfold create_table, resolve_source, glob, mbind, M_bind.
  destruct (w_files w (path_join DATA_DIR rel)) as [|q qs] eqn:Hfiles; [done|].
  cbn [is_empty mret M_ret]. unfold con_execute, execute.
  by rewrite Hw, Hfiles.
Qed.

(** The loop of lines 67-74 over any list of datasets: when some dataset
    has no part, it raises [FileNotFoundError]; the tables of the
    datasets before the first such one are in the database by then. *)
Lemma create_tables_missing (l : list (string * string)) (w : world)
    (db : database) :
  w_out w = Some db →
  (∃ p, p ∈ l ∧ w_files w (path_join DATA_DIR (snd p)) = []) →
  ∃ msg db',
    for_each l (fun '(tbl, rel_glob) => create_table tbl rel_glob) w
    = (Err (FileNotFoundError msg), set_out w (Some db'))
    ∧ views db' = views db ∧ indexes db' = indexes db.
Proof.
  revert w db. induction l as [|[tbl rel] l IH]; intros w db Hw (p & Hp & Hnil).
  - by apply elem_of_nil in Hp.
  - cbn [for_each]. unfold mbind at 1, M_bind at 1.
    rewrite (create_table_run w db tbl rel Hw).
    destruct (w_files w (path_join DATA_DIR rel)) as [|q qs] eqn:Hfiles.
    + eexists _, db. by rewrite (set_out_same w db Hw).
    + set (db1 := with_table db tbl (read_parquet (q :: qs))).
      destruct (IH (set_out w (Some db1)) db1) as (msg & db' & Hrun & Hv & Hi).
      * done.
      * apply elem_of_cons in Hp as [->|Hp]; [|by exists p].
        cbn [snd] in Hnil. congruence.
      * exists msg, db'. by rewrite Hrun.
Qed.

(** A missing input makes [main] raise [FileNotFoundError]; the output
    file exists by then, with no view and no index in it. *)
Lemma main_missing_input (w : world) :
  (∃ p, p ∈ FILES ∧ w_files w (path_join DATA_DIR (snd p)) = []) →
  ∃ msg db',
    main w = (Err (FileNotFoundError msg), set_out w (Some db'))
    ∧ views db' = ∅ ∧ indexes db' = ∅.
Proof.
  intros Hmiss. unfold main.
  unfold mbind at 1, M_bind at 1, remove_out.
  unfold mbind at 1, M_bind at 1, connect.
  unfold mbind at 1, M_bind at 1, create_tables.
  destruct (create_tables_missing FILES
              (set_out (set_out w None) (Some empty_db)) empty_db)
    as (msg & db' & Hrun & Hv & Hi); [done|done|].
  cbn [w_out set_out default from_option] in *.
  rewrite Hrun. by exists msg, db'.
Qed.

(** The second builder checks its inputs before it opens the output
    file: a missing input leaves no output file. *)
Lemma v2_missing_input (w : world) :
  (∃ g, g ∈ [BuildV2.SRC_TRIPS; BuildV2.SRC_FLAGS; BuildV2.SRC_DIMZONE]
        ∧ w_files w g = []) →
  ∃ msg, BuildV2.main w = (Err (FileNotFoundError msg), set_out w None).
Proof.
  intros (g & Hg & Hnil). unfold BuildV2.main.
  unfold mbind at 1, M_bind at 1, remove_out.
  unfold mbind at 1, M_bind at 1, BuildV2.ensure_inputs_exist.
  cbn [w_files set_out foldl].
  rewrite !elem_of_cons, elem_of_nil in Hg.
  destruct (w_files w BuildV2.SRC_TRIPS) eqn:H1;
    destruct (w_files w BuildV2.SRC_FLAGS) eqn:H2;
    destruct (w_files w BuildV2.SRC_DIMZONE) eqn:H3;
    cbn [is_empty app]; try by eexists.
  destruct Hg as [->|[->|[->|[]]]]; congruence.
Qed.

(** One index statement under [try_idx]: no error comes out; the index
    is there afterwards when the table has the column; nothing else
    changes. *)
Lemma try_idx_index (w : world) (db : database) (idx tbl col : string) :
  w_out w = Some db →
  ∃ db',
    try_idx (CreateIndex idx tbl col) w = (Ok tt, set_out w (Some db'))
    ∧ tables db' = tables db ∧ views db' = views db
    ∧ (∀ i, is_Some (indexes db !! i) → is_Some (indexes db' !! i))
    ∧ (∀ t, tables db !! tbl = Some t → has_col (t_cols t) col = true →
            is_Some (indexes db' !! idx)).
Proof.
  intros Hw. unfold try_idx, con_execute, execute. rewrite Hw.
  destruct (tables db !! tbl) as [t|] eqn:Ht.
  - destruct (has_col (t_cols t) col) eqn:Hc.
    + destruct (indexes db !! idx) as [e|] eqn:Hi.
      * exists db. rewrite (set_out_same w db Hw).
        split; [done|]. split; [done|]. split; [done|]. split; [done|].
        intros t' _ _. by rewrite Hi.
      * exists (with_index db idx tbl col).
        split; [done|]. split; [done|]. split; [done|]. split.
        -- intros i Hsome. cbn [indexes with_index]. rewrite lookup_insert.
           by case_decide.
        -- intros t' _ _. cbn [indexes with_index].
           by rewrite lookup_insert_eq.
    + exists db. rewrite (set_out_same w db Hw).
      split; [done|]. split; [done|]. split; [done|]. split; [done|].
      intros t' [= <-]. congruence.
  - exists db. rewrite (set_out_same w db Hw).
    split; [done|]. split; [done|]. split; [done|]. split; done.
Qed.

(** The body of the index loop never raises. *)
Lemma for_each_never_raises {A} (l : list A) (body : A → M unit) (w : world) :
  (∀ a w0, fst (body a w0) = Ok tt) → fst (for_each l body w) = Ok tt.
Proof.
  intros Hbody. revert w. induction l as [|a l IH]; intros w; [done|].
  cbn [for_each]. unfold mbind, M_bind.
  specialize (Hbody a w). destruct (body a w) as [[[]|e] w1]; [apply IH|done].
Qed.

Lemma index_body_run (w : world) (db : database) (tbl : string) :
  w_out w = Some db →
  ∃ db',
    index_body tbl w = (Ok tt, set_out w (Some db'))
    ∧ tables db' = tables db ∧ views db' = views db
    ∧ (∀ i, is_Some (indexes db !! i) → is_Some (indexes db' !! i))
    ∧ (∀ t, tables db !! tbl = Some t →
         (has_col (t_cols t) "pickup_date" = true →
          is_Some (indexes db' !! ("idx_" +:+ tbl +:+ "_date")))
         ∧ (has_col (t_cols t) "service_type" = true →
            is_Some (indexes db' !! ("idx_" +:+ tbl +:+ "_svc")))).
Proof.
  intros Hw. unfold index_body, mbind, M_bind.
  destruct (try_idx_index w db ("idx_" +:+ tbl +:+ "_date") tbl "pickup_date" Hw)
    as (db1 & -> & Ht1 & Hv1 & Hm1 & Hd).
  destruct (try_idx_index (set_out w (Some db1)) db1
              ("idx_" +:+ tbl +:+ "_svc") tbl "service_type" eq_refl)
    as (db2 & -> & Ht2 & Hv2 & Hm2 & Hs).
  exists db2. split; [done|]. split; [congruence|]. split; [congruence|].
  split; [by auto|]. intros t Ht. split.
  - intros Hc. by apply Hm2, (Hd t).
  - intros Hc. apply (Hs t); [by rewrite Ht1|done].
Qed.

(** The index loop over any list of tables. *)
Lemma index_loop (l : list string) (w : world) (db : database) :
  w_out w = Some db →
  ∃ db',
    for_each l index_body w = (Ok tt, set_out w (Some db'))
    ∧ tables db' = tables db ∧ views db' = views db
    ∧ (∀ i, is_Some (indexes db !! i) → is_Some (indexes db' !! i))
    ∧ (∀ tbl t, tbl ∈ l → tables db !! tbl = Some t →
         (has_col (t_cols t) "pickup_date" = true →
          is_Some (indexes db' !! ("idx_" +:+ tbl +:+ "_date")))
         ∧ (has_col (t_cols t) "service_type" = true →
            is_Some (indexes db' !! ("idx_" +:+ tbl +:+ "_svc")))).
Proof.
  revert w db. induction l as [|tbl l IH]; intros w db Hw.
  - exists db. rewrite (set_out_same w db Hw).
    split; [done|]. split; [done|]. split; [done|]. split; [done|].
    intros tbl t Hin. by apply elem_of_nil in Hin.
  - cbn [for_each]. unfold mbind, M_bind.
    destruct (index_body_run w db tbl Hw) as (db1 & -> & Ht1 & Hv1 & Hm1 & Hb).
    destruct (IH (set_out w (Some db1)) db1 eq_refl)
      as (db2 & -> & Ht2 & Hv2 & Hm2 & Hl).
    exists db2. split; [done|]. split; [congruence|]. split; [congruence|].
    split; [by auto|]. intros tbl' t Hin Ht.
    apply elem_of_cons in Hin as [->|Hin].
    + destruct (Hb t Ht) as [Hd Hs]. split; intros Hc; apply Hm2; auto.
    + apply (Hl tbl' t Hin). by rewrite Ht1.
Qed.

End BuildFacts.

Module BuildTheorems.

Import Str Resolver Sql Build StrFacts BuildFacts Scenarios BuildScenarios.

(** C3: with a part for the first dataset only, [main] raises the
    [FileNotFoundError] of the second dataset, and the output file is
    there: the earlier output is gone, and the new database holds the
    table of the first dataset and nothing else.  The second builder, on
    inputs that are all missing, raises and leaves no output file. *)
Theorem missing_input_leaves_partial_database :
  main zones_only
  = (Err (FileNotFoundError
            "No parquet files match: data/02_fact_trips_sample/*.parquet"),
     set_out zones_only
       (Some (with_table empty_db "dim_taxi_zone" (p_data zone_part))))
  ∧ ∃ msg, BuildV2.main no_inputs
           = (Err (FileNotFoundError msg), set_out no_inputs None).
Proof. split; [reflexivity|]. eexists. reflexivity. Qed.

(** C9: the index loop never raises, whatever the statements do.  From a
    state with a database it leaves the tables and the views as they
    were, and for every table of the list it has created the index on
    pickup_date when the table has that column and the index on
    service_type when the table has that column, whichever other index
    statements have failed before. *)
Theorem index_failures_ignored (w : world) :
  fst (create_indexes w) = Ok tt
  ∧ ∀ db, w_out w = Some db →
      ∃ db',
        create_indexes w = (Ok tt, set_out w (Some db'))
        ∧ tables db' = tables db ∧ views db' = views db
        ∧ ∀ tbl t, tbl ∈ INDEX_TABLES → tables db !! tbl = Some t →
            (has_col (t_cols t) "pickup_date" = true →
             is_Some (indexes db' !! ("idx_" +:+ tbl +:+ "_date")))
            ∧ (has_col (t_cols t) "service_type" = true →
               is_Some (indexes db' !! ("idx_" +:+ tbl +:+ "_svc"))).
Proof.
  split.
  - apply for_each_never_raises. intros tbl w0.
    unfold index_body, mbind, M_bind, try_idx.
    destruct (con_execute _ w0) as [r1 w1].
    by destruct (con_execute _ w1) as [r2 w2].
  - intros db Hw.
    destruct (index_loop INDEX_TABLES w db Hw) as (db' & Hrun & Ht & Hv & _ & Hi).
    by exists db'.
Qed.

Lemma index_failures_ignored_witness :
  fst (create_indexes payment_world) = Ok tt
  ∧ snd (create_indexes payment_world)
    = set_out payment_world
        (Some (with_index payment_db "idx_payment_mix_date" "payment_mix"
                 "pickup_date"))
  ∧ ∃ db',
      create_indexes payment_world
      = (Ok tt, set_out payment_world (Some db'))
      ∧ tables db' = tables payment_db ∧ views db' = views payment_db
      ∧ ∀ tbl t, tbl ∈ INDEX_TABLES → tables payment_db !! tbl = Some t →
          (has_col (t_cols t) "pickup_date" = true →
           is_Some (indexes db' !! ("idx_" +:+ tbl +:+ "_date")))
          ∧ (has_col (t_cols t) "service_type" = true →
             is_Some (indexes db' !! ("idx_" +:+ tbl +:+ "_svc"))).
Proof.
  split; [apply (index_failures_ignored payment_world)|].
  split; [reflexivity|].
  apply (index_failures_ignored payment_world). reflexivity.
Defined.

(** A whole build in which each of the eighteen index statements fails:
    no base table has a column pickup_date or service_type.  The build
    ends without error, with ten tables, ten views and no index. *)
Example build_survives_index_failures :
  fst (main full_world) = Ok tt
  ∧ (w_out (snd (main full_world)) ≫= fun db =>
       Some (size (tables db), size (views db), size (indexes db)))
    = Some (10, 10, 0).
Proof. split; reflexivity. Qed.

End BuildTheorems.

(** ** Quoting *)

Module QuoteTheorems.

Import Str Resolver Sql StrFacts ResolverFacts SqlFacts Scenarios.


(** C8: the one-column list whose column is a, a double quote, date.
    The resolver selects the column in tier 2 and writes it between
    double quotes without doubling the quote inside; the engine reads
    the reference as the column a followed by stray text, and does not
    accept the expression. *)
Theorem embedded_quote_not_escaped :
  any_special quote_name = true
  ∧ build_date_expr [quote_name]
    = "COALESCE(TRY_CAST(t."
      +:+ String dquote ("a" +:+ String dquote ("date" +:+ String dquote " AS DATE))"))
  ∧ read_ident (String dquote (quote_name +:+ String dquote " AS DATE))"))
    = Some ("a", "date" +:+ String dquote " AS DATE))")
  ∧ parse_date_expr (build_date_expr [quote_name]) = None.
Proof. repeat split; reflexivity. Qed.

End QuoteTheorems.

(** ** The dashboard filter *)

Module DashboardTheorems.

Import Dashboard DashboardScenarios.

Section Filter.

Variable to_datetime : cell → option (Z * Z).

Lemma service_stage_nil (out : frame) : service_stage out [] = out.
Proof.
  unfold service_stage. by destruct (col_index "service_type" (columns out)).
Qed.

Lemma existsb_is_Some_false {A B} (f : A → option B) (l : list A) :
  (∀ a, a ∈ l → f a = None) →
  existsb (fun d => bool_decide (is_Some d)) (map f l) = false.
Proof.
  induction l as [|a l IH]; intros Hl; [done|]. cbn [map existsb].
  rewrite (Hl a) by apply list_elem_of_here.
  rewrite IH by (intros a' Ha'; by apply Hl, list_elem_of_further).
  done.
Qed.

Lemma existsb_is_Some_true {A B} (f : A → option B) (l : list A) (a : A) :
  a ∈ l → is_Some (f a) →
  existsb (fun d => bool_decide (is_Some d)) (map f l) = true.
Proof.
  intros Ha Hs. apply existsb_exists. exists (f a).
  split; [by apply in_map, list_elem_of_In|by apply bool_decide_eq_true_2].
Qed.

Lemma date_stage_no_dates (df : frame) (start_date end_date : Z) :
  no_dates to_datetime df → date_stage to_datetime df start_date end_date = df.
Proof.
  unfold no_dates, date_stage.
  destruct (col_index "pickup_date" (columns df)) as [i|]; [|done].
  intros Hnone. by rewrite existsb_is_Some_false.
Qed.

(** C10: on a frame that is not empty,
    - when the pickup_date column is missing or holds no date, no row is
      filtered by date: the result is the service filter of the frame;
    - when the list of services is empty, no row is filtered by service:
      the result is the date filter of the frame;
    - in both cases at once the frame comes back as it is;
    - when the column is there and some cell of it converts to a date,
      the result is the service filter of the rows whose date, cut to
      the day, lies between the two bounds. *)
Theorem filter_gates (df : frame) (start_date end_date : Z)
    (services : list string) :
  empty df = false → NoDup (columns df) →
  (no_dates to_datetime df →
   filter_by_date_service to_datetime df start_date end_date services
   = service_stage df services)
  ∧ (services = [] →
     filter_by_date_service to_datetime df start_date end_date services
     = date_stage to_datetime df start_date end_date)
  ∧ (no_dates to_datetime df → services = [] →
     filter_by_date_service to_datetime df start_date end_date services = df)
  ∧ (∀ i r0,
       col_index "pickup_date" (columns df) = Some i →
       r0 ∈ rows df → is_Some (to_datetime (cell_at i r0)) →
       filter_by_date_service to_datetime df start_date end_date services
       = service_stage
           (with_rows df
              (List.filter (fun r => in_range start_date end_date (cell_at i r))
                 (map (fun r => <[i := date_cell to_datetime (cell_at i r)]> r)
                    (rows df))))
           services).
Proof.
  intros Hne _. unfold filter_by_date_service. rewrite Hne.
  split; [intros Hno; by rewrite date_stage_no_dates|].
  split; [intros ->; apply service_stage_nil|].
  split; [intros Hno ->; by rewrite service_stage_nil, date_stage_no_dates|].
  intros i r0 Hi Hr0 Hs. f_equal. unfold date_stage. rewrite Hi.
  by rewrite (existsb_is_Some_true (fun r => to_datetime (cell_at i r))
                (rows df) r0 Hr0 Hs).
Qed.

End Filter.

Lemma filter_gates_witness :
  filter_by_date_service demo_to_datetime daily_frame 19905 19910
    ["yellow"; "green"]
  = with_rows daily_frame
      [ [CDate 19905; CText "yellow"; CNum 10];
        [CDate 19906; CText "green"; CNum 7] ]
  ∧ filter_by_date_service demo_to_datetime undated_frame 19905 19910 []
    = undated_frame
  ∧ (no_dates demo_to_datetime undated_frame →
     filter_by_date_service demo_to_datetime undated_frame 19905 19910
       ["yellow"]
     = service_stage undated_frame ["yellow"]).
Proof.
  split; [reflexivity|]. split; [reflexivity|].
  apply (filter_gates demo_to_datetime undated_frame 19905 19910 ["yellow"]).
  - reflexivity.
  - apply (bool_decide_unpack _). exact I.
Defined.

End DashboardTheorems.

(** * Further properties *)

(** ** The resolver *)

Module ResolverMore.

Import Str Resolver Sql StrFacts ResolverFacts SqlFacts ResolverTheorems.
Import Scenarios.

Lemma build_null_candidates (cols : list string) :
  build_date_expr cols = "NULL::DATE" ↔ candidates cols = [].
Proof.
  unfold build_date_expr. destruct (candidates cols) as [|e es]; [done|].
  cbn [is_empty]. split; [|done]. intros Hbad.
  change ("COALESCE(" +:+ join ", " (e :: es) +:+ ")")
    with (String "C" ("OALESCE(" +:+ join ", " (e :: es) +:+ ")")) in Hbad.
  discriminate Hbad.
Qed.

Lemma filter_nil_iff {A} (f : A → bool) (l : list A) :
  List.filter f l = [] ↔ ∀ x, x ∈ l → f x = false.
Proof.
  induction l as [|a l IH]; cbn [List.filter].
  - split; [|done]. intros _ x Hx. by apply elem_of_nil in Hx.
  - destruct (f a) eqn:Hfa.
    + split; [done|]. intros Hall.
      specialize (Hall a (list_elem_of_here a l)). congruence.
    + rewrite IH. split.
      * intros Hall x [->|Hx]%elem_of_cons; auto.
      * intros Hall x Hx. by apply Hall, list_elem_of_further.
Qed.

(** Every name of tier 1 holds the word date. *)
Lemma candidate_holds_date (cn : string) :
  cn ∈ DATE_CANDIDATES → ∃ pre post, cn = pre +:+ "date" +:+ post.
Proof.
  intros Hcn. apply contains_spec. revert Hcn. unfold DATE_CANDIDATES.
  rewrite !elem_of_cons, elem_of_nil.
  intros H; repeat destruct H as [->|H]; done.
Qed.

Lemma matches1_nil_inv (cols : list string) (c : string) :
  matches1 cols = [] → c ∈ cols → lower c ∉ DATE_CANDIDATES.
Proof. intros Hnil Hc Hl. by apply (matches1_nonempty cols c Hc Hl). Qed.

(** A name is generic exactly when it holds the word date or is one of
    dt, ds, day: the two other tests of line 50 add nothing. *)
Lemma generic_name_short (low : string) :
  generic_name low
  ↔ (∃ pre post, low = pre +:+ "date" +:+ post) ∨ low ∈ ["dt"; "ds"; "day"].
Proof.
  unfold generic_name. split.
  - intros [H|[(pre & post & ->)|[H|(pre & ->)]]]; [by left| |by right|].
    + left. by exists pre, ("time" +:+ post).
    + left. exists (pre +:+ "_"), "". by rewrite sapp_assoc.
  - intros [H|H]; [by left|by right; right; left].
Qed.

Lemma null_iff_no_date_names (cols : list string) :
  build_date_expr cols = "NULL::DATE"
  ↔ ∀ c, c ∈ cols →
      (¬ ∃ pre post, lower c = pre +:+ "date" +:+ post)
      ∧ lower c ∉ ["dt"; "ds"; "day"].
Proof.
  rewrite build_null_candidates, candidates_eq. split.
  - intros Hnil c Hc.
    destruct (matches1 cols) as [|m ms] eqn:Hm; [|done].
    apply (f_equal (@length string)) in Hnil. rewrite length_map in Hnil.
    apply nil_length_inv in Hnil.
    pose proof (proj1 (filter_nil_iff is_generic cols) Hnil c Hc) as Hg.
    assert (Hng : ¬ generic_name (lower c)).
    { intros Hgen%is_generic_spec. congruence. }
    rewrite generic_name_short in Hng. tauto.
  - intros Hno.
    assert (Hng : ∀ c, c ∈ cols → is_generic c = false).
    { intros c Hc. destruct (is_generic c) eqn:Hg; [|done].
      apply is_generic_spec, generic_name_short in Hg.
      destruct (Hno c Hc). tauto. }
    rewrite matches1_empty.
    + by rewrite (proj2 (filter_nil_iff is_generic cols) Hng).
    + intros c Hc Hin. apply candidate_holds_date in Hin.
      by destruct (Hno c Hc).
Qed.

(** X1: The resolver returns the typed NULL exactly when no column has a
    lower-cased name that holds the word date or is dt, ds or day. *)
Theorem null_exactly_without_date_names (cols : list string) :
  build_date_expr cols = "NULL::DATE"
  ↔ ∀ c, c ∈ cols →
      (¬ ∃ pre post, lower c = pre +:+ "date" +:+ post)
      ∧ lower c ∉ ["dt"; "ds"; "day"].
Proof. apply null_iff_no_date_names. Qed.

(** In tier 2 the quoting of line 51 is the quoting of line 44: a column
    that reaches tier 2 is not called date. *)
Lemma quoted2_is_quoted1 (o : string) :
  lower o ∉ DATE_CANDIDATES → quoted2 o = quoted1 o.
Proof.
  intros Hno. unfold quoted1, quoted2.
  destruct (String.eqb (lower o) "date") eqn:Hd; [|done].
  apply String.eqb_eq in Hd. destruct Hno. rewrite Hd.
  unfold DATE_CANDIDATES. apply list_elem_of_further, list_elem_of_here.
Qed.

Lemma selected_elem (cols : list string) (o : string) :
  o ∈ selected cols → o ∈ cols.
Proof.
  unfold selected. destruct (matches1 cols) as [|m ms] eqn:Hm.
  - intros [Ho _]%list_elem_of_In%filter_In. by apply list_elem_of_In.
  - rewrite <- Hm. by intros [? _]%matches1_elem.
Qed.

Lemma candidates_selected (cols : list string) :
  candidates cols = map cast1 (selected cols).
Proof.
  rewrite candidates_eq. unfold selected.
  destruct (matches1 cols) as [|m ms] eqn:Hm; [|done].
  apply map_ext_in. intros o [Ho _]%filter_In. unfold cast1, cast2.
  rewrite quoted2_is_quoted1; [done|].
  apply (matches1_nil_inv cols o Hm). by apply list_elem_of_In.
Qed.


Lemma lower_inj_on (cols : list string) (a b : string) :
  NoDup (map lower cols) → a ∈ cols → b ∈ cols → lower a = lower b → a = b.
Proof.
  induction cols as [|c cols IH]; intros Hnd Ha Hb Hab.
  - by apply elem_of_nil in Ha.
  - cbn [map] in Hnd. apply NoDup_cons in Hnd as [Hc Hnd].
    apply elem_of_cons in Ha as [->|Ha]; apply elem_of_cons in Hb as [->|Hb].
    + done.
    + destruct Hc. rewrite Hab. apply list_elem_of_In, in_map.
      by apply list_elem_of_In.
    + destruct Hc. rewrite <- Hab. apply list_elem_of_In, in_map.
      by apply list_elem_of_In.
    + by apply IH.
Qed.

(** With distinct lower-cased names, the dictionary of line 38 holds
    exactly the columns, under their lower-cased names. *)
Lemma lower_map_lookup_iff (cols : list string) (k c : string) :
  NoDup (map lower cols) →
  lower_map cols !! k = Some c ↔ c ∈ cols ∧ lower c = k.
Proof.
  intros Hnd. split; [apply lower_map_lookup|]. intros [Hc Hk].
  assert (Hs : is_Some (lower_map cols !! k)).
  { apply lower_map_is_Some. rewrite <- Hk.
    apply list_elem_of_In, in_map. by apply list_elem_of_In. }
  destruct Hs as [c' Hc']. rewrite Hc'. f_equal.
  apply lower_map_lookup in Hc' as [Hin Hl].
  apply (lower_inj_on cols); [done..|congruence].
Qed.

Lemma lower_map_perm (cols cols' : list string) (k : string) :
  cols ≡ₚ cols' → NoDup (map lower cols) →
  lower_map cols' !! k = lower_map cols !! k.
Proof.
  intros Hp Hnd.
  assert (Hnd' : NoDup (map lower cols')).
  { assert (Hpm : map lower cols ≡ₚ map lower cols') by by apply Permutation_map.
    by rewrite <- Hpm. }
  apply option_eq. intros c.
  rewrite !lower_map_lookup_iff by done. by rewrite Hp.
Qed.

Lemma omap_pointwise {A B} (f g : A → option B) (l : list A) :
  (∀ x, f x = g x) → omap f l = omap g l.
Proof.
  intros Hfg. induction l as [|a l IH]; [done|].
  cbn [omap list_omap]. by rewrite Hfg, IH.
Qed.

(** X3: The order of the columns does not matter in tier 1: two lists with
    the same columns, whose lower-cased names are distinct, get the same
    expression when some column matches a tier-1 name. *)
Theorem tier1_ignores_column_order (cols cols' : list string) :
  cols ≡ₚ cols' → NoDup (map lower cols) →
  (∃ c, c ∈ cols ∧ lower c ∈ DATE_CANDIDATES) →
  build_date_expr cols' = build_date_expr cols.
Proof.
  intros Hp Hnd (c & Hc & Hl).
  assert (Hm : matches1 cols' = matches1 cols).
  { unfold matches1. apply omap_pointwise. intros cn.
    by apply lower_map_perm. }
  pose proof (matches1_nonempty cols c Hc Hl) as Hne.
  rewrite (tier1_build cols Hne), (tier1_build cols') by by rewrite Hm.
  by rewrite Hm.
Qed.

Lemma tier1_ignores_column_order_witness :
  build_date_expr ["service_date"; "trips"; "Pickup_Date"]
  = build_date_expr ["trips"; "Pickup_Date"; "service_date"].
Proof.
  apply (tier1_ignores_column_order
           ["trips"; "Pickup_Date"; "service_date"]
           ["service_date"; "trips"; "Pickup_Date"]).
  - apply (bool_decide_unpack _). exact I.
  - apply (bool_decide_unpack _). exact I.
  - exists "Pickup_Date". split.
    + apply list_elem_of_further, list_elem_of_here.
    + apply list_elem_of_here.
Defined.

Lemma selected_nil_build (cols : list string) :
  selected cols = [] → build_date_expr cols = "NULL::DATE".
Proof.
  intros Hs. apply build_null_candidates.
  by rewrite candidates_selected, Hs.
Qed.

(** X4: The engine reads back what the resolver means: on a column list
    whose names are readable (no double quote; plain, or else holding a
    space or a hyphen), the text of the resolver reads as the COALESCE
    of the casts of the selected columns, in order, or as NULL when
    none is selected; and every column it names is in the list. *)
Theorem engine_reads_resolver_text (cols : list string) :
  (∀ c, c ∈ cols → readable c) →
  parse_date_expr (build_date_expr cols) = Some (resolved cols)
  ∧ binds cols (resolved cols) = true.
Proof.
  intros Hr. unfold resolved.
  destruct (selected cols) as [|o os] eqn:Hs.
  - by rewrite (selected_nil_build cols Hs).
  - assert (Hin : ∀ c, c ∈ o :: os → c ∈ cols).
    { intros c Hc. rewrite <- Hs in Hc. by apply selected_elem. }
    split.
    + unfold build_date_expr. rewrite candidates_selected, Hs.
      apply (parse_coalesce (map CastDate (o :: os)) (map cast1 (o :: os)));
        [|done].
      apply renders_map. intros c Hc. by apply renders_cast1, Hr, Hin.
    + cbn [binds]. apply forallb_forall. intros x (c & <- & Hc)%in_map_iff.
      cbn [cand_col]. apply SelectFacts.has_col_elem, Hin.
      by apply list_elem_of_In.
Qed.

Lemma engine_reads_resolver_text_witness :
  parse_date_expr (build_date_expr ["zone"; "trip date"; "ds"; "drop-off_date"])
  = Some (Coalesce [CastDate "trip date"; CastDate "ds";
                    CastDate "drop-off_date"])
  ∧ binds ["zone"; "trip date"; "ds"; "drop-off_date"]
      (resolved ["zone"; "trip date"; "ds"; "drop-off_date"]) = true.
Proof.
  apply (engine_reads_resolver_text
           ["zone"; "trip date"; "ds"; "drop-off_date"]).
  intros c Hc. rewrite !elem_of_cons, elem_of_nil in Hc.
  repeat destruct Hc as [->|Hc]; try done;
    (split; [reflexivity|]); (by left) || (by right).
Defined.

End ResolverMore.

(** ** The build as a whole *)

Module BuildMore.

Import Str Resolver Sql Build StrFacts ResolverFacts SqlFacts.
Import ResolverTheorems SelectFacts ViewFacts BuildFacts.
Import Scenarios BuildScenarios.

(** *** The input files are only read *)











(** *** The three loops of [main] *)

Lemma for_each_app {A} (l1 l2 : list A) (body : A → M unit) (w : world) :
  for_each (l1 ++ l2) body w
  = match for_each l1 body w with
    | (Ok _, w') => for_each l2 body w'
    | (Err e, w') => (Err e, w')
    end.
Proof.
  revert w. induction l1 as [|a l1 IH]; intros w; [done|].
  cbn [app for_each]. unfold mbind, M_bind.
  destruct (body a w) as [[[]|e] w1]; [apply IH|done].
Qed.

(** The loop of lines 67-74 over datasets that all have parts: each gets
    its table, and nothing else changes. *)
Lemma create_tables_run (l : list (string * string)) (w : world)
    (db : database) :
  w_out w = Some db →
  (∀ p, p ∈ l → w_files w (path_join DATA_DIR (snd p)) ≠ []) →
  ∃ db',
    for_each l (fun '(tbl, rel_glob) => create_table tbl rel_glob) w
    = (Ok tt, set_out w (Some db'))
    ∧ views db' = views db ∧ indexes db' = indexes db
    ∧ (∀ n, n ∉ map fst l → tables db' !! n = tables db !! n)
    ∧ (NoDup (map fst l) → ∀ p, p ∈ l →
         tables db' !! fst p
         = Some (read_parquet (w_files w (path_join DATA_DIR (snd p))))).
Proof.
  revert w db. induction l as [|[tbl rel] l IH]; intros w db Hw Hfiles.
  - exists db. cbn [for_each]. rewrite <- (set_out_same w db Hw) at 1.
    split; [by rewrite (set_out_same w db Hw)|].
    split; [done|]. split; [done|]. split; [done|].
    intros _ p Hp. by apply elem_of_nil in Hp.
  - cbn [for_each]. unfold mbind at 1, M_bind at 1.
    rewrite (create_table_run w db tbl rel Hw).
    pose proof (Hfiles (tbl, rel) (list_elem_of_here _ _)) as Hhead.
    cbn [snd] in Hhead.
    destruct (w_files w (path_join DATA_DIR rel)) as [|q qs] eqn:Hq; [done|].
    set (db1 := with_table db tbl (read_parquet (q :: qs))).
    destruct (IH (set_out w (Some db1)) db1 eq_refl)
      as (db' & Hrun & Hv & Hi & Hother & Hnew).
    { intros p Hp. apply Hfiles. by apply list_elem_of_further. }
    exists db'. split; [by rewrite Hrun|]. split; [done|]. split; [done|].
    split.
    + intros n Hn. cbn [map fst] in Hn. apply not_elem_of_cons in Hn as [Hne Hn].
      rewrite (Hother n Hn). cbn [tables db1 with_table].
      by rewrite lookup_insert_ne.
    + intros Hnd p Hp. cbn [map fst] in Hnd.
      apply NoDup_cons in Hnd as [Hfresh Hnd].
      apply elem_of_cons in Hp as [->|Hp].
      * cbn [fst snd]. rewrite (Hother tbl Hfresh), Hq.
        cbn [tables db1 with_table]. by rewrite lookup_insert_eq.
      * by apply (Hnew Hnd p Hp).
Qed.

Lemma add_col_elem (acc l : list string) (c : string) :
  c ∈ foldl add_col acc l → c ∈ acc ∨ c ∈ l.
Proof.
  revert acc. induction l as [|x l IH]; intros acc Hc; [by left|].
  cbn [foldl] in Hc. apply IH in Hc as [Hc|Hc].
  - unfold add_col in Hc. destruct (has_col acc x); [by left|].
    apply elem_of_app in Hc as [Hc|Hc]; [by left|].
    apply list_elem_of_singleton in Hc as ->. right. apply list_elem_of_here.
  - right. by apply list_elem_of_further.
Qed.

(** A column of a table read with union by name is a column of a part. *)
Lemma read_parquet_col (parts : list part) (c : string) :
  c ∈ t_cols (read_parquet parts) →
  ∃ p, p ∈ parts ∧ c ∈ t_cols (p_data p).
Proof.
  cbn [read_parquet t_cols]. unfold union_cols.
  assert (Hgen : ∀ acc, c ∈ foldl
            (fun acc p => foldl add_col acc (t_cols (p_data p))) acc parts →
            c ∈ acc ∨ ∃ p, p ∈ parts ∧ c ∈ t_cols (p_data p)).
  { induction parts as [|q parts IH]; intros acc Hc; [by left|].
    cbn [foldl] in Hc. apply IH in Hc as [Hc|(p & Hp & Hc)].
    - apply add_col_elem in Hc as [Hc|Hc]; [by left|].
      right. exists q. split; [apply list_elem_of_here|done].
    - right. exists p. split; [by apply list_elem_of_further|done]. }
  intros Hc. apply Hgen in Hc as [Hc|Hc]; [by apply elem_of_nil in Hc|done].
Qed.

(** The loop body of lines 77-96 on a table with readable columns: the
    view is added, and nothing else changes. *)
Lemma create_view_run (w : world) (db : database) (tbl : string) (t : table) :
  w_out w = Some db → tables db !! tbl = Some t →
  (∀ c, c ∈ t_cols t → readable c) →
  ∃ v, create_view tbl w
       = (Ok tt, set_out w (Some (with_view db ("v_" +:+ tbl) v))).
Proof.
  intros Hw Ht Hr. destruct (build_parses (t_cols t) Hr) as (e & He & Hb).
  rewrite (create_view_unfold w db tbl t Hw Ht). eexists.
  apply (con_execute_view_ok w db tbl t _ _ e Hw Ht He Hb).
  by destruct (has_col (t_cols t) "pickup_date").
Qed.

Lemma create_views_run (l : list (string * string)) (w : world)
    (db : database) :
  w_out w = Some db →
  (∀ p, p ∈ l → ∃ t, tables db !! fst p = Some t
                     ∧ ∀ c, c ∈ t_cols t → readable c) →
  ∃ db',
    for_each l (fun '(tbl, _) => create_view tbl) w
    = (Ok tt, set_out w (Some db'))
    ∧ tables db' = tables db ∧ indexes db' = indexes db
    ∧ (∀ n, is_Some (views db !! n) → is_Some (views db' !! n))
    ∧ (∀ p, p ∈ l → is_Some (views db' !! ("v_" +:+ fst p))).
Proof.
  revert w db. induction l as [|[tbl rel] l IH]; intros w db Hw Htabs.
  - exists db. cbn [for_each]. split; [by rewrite (set_out_same w db Hw)|].
    split; [done|]. split; [done|]. split; [done|].
    intros p Hp. by apply elem_of_nil in Hp.
  - cbn [for_each]. unfold mbind at 1, M_bind at 1.
    destruct (Htabs (tbl, rel) (list_elem_of_here _ _)) as (t & Ht & Hr).
    cbn [fst] in Ht.
    destruct (create_view_run w db tbl t Hw Ht Hr) as (v & ->).
    set (db1 := with_view db ("v_" +:+ tbl) v).
    destruct (IH (set_out w (Some db1)) db1 eq_refl)
      as (db' & Hrun & Htb & Hi & Hmono & Hnew).
    { intros p Hp. apply Htabs. by apply list_elem_of_further. }
    exists db'. split; [by rewrite Hrun|]. split; [done|]. split; [done|].
    split.
    + intros n Hn. apply Hmono. cbn [views db1 with_view].
      rewrite lookup_insert. by case_decide.
    + intros p [->|Hp]%elem_of_cons; [|by apply Hnew].
      apply Hmono. cbn [fst views db1 with_view]. by rewrite lookup_insert_eq.
Qed.

Lemma files_names_distinct : NoDup (map fst FILES).
Proof. apply (bool_decide_unpack _). exact I. Qed.

Lemma span_views_of_files (n : string) :
  n ∈ SPAN_VIEWS → ∃ p, p ∈ FILES ∧ n = "v_" +:+ fst p.
Proof.
  unfold SPAN_VIEWS. rewrite !elem_of_cons, elem_of_nil.
  intros H; repeat destruct H as [->|H]; try done.
  - exists ("daily_service_metrics", "03_daily_service_metrics/*.parquet").
    split; [|done]. apply (bool_decide_unpack _). exact I.
  - exists ("airport_traffic_daily", "08_airport_traffic_daily/*.parquet").
    split; [|done]. apply (bool_decide_unpack _). exact I.
  - exists ("service_efficiency", "09_service_efficiency/*.parquet").
    split; [|done]. apply (bool_decide_unpack _). exact I.
  - exists ("rush_hour_pickups", "10_rush_hour_pickups/*.parquet").
    split; [|done]. apply (bool_decide_unpack _). exact I.
  - exists ("pu_zone_daily", "02_fact_trips_sample/*.parquet").
    split; [|done]. apply (bool_decide_unpack _). exact I.
Qed.

(** X6: When every dataset has a part and every column name of the parts is
    readable, [main] ends without error, whatever index statements fail;
    the database it leaves has, for each dataset, the table read from
    its parts and the view over it. *)
Theorem build_succeeds (w : world) :
  (∀ p, p ∈ FILES → w_files w (path_join DATA_DIR (snd p)) ≠ []) →
  (∀ p q c, p ∈ FILES → q ∈ w_files w (path_join DATA_DIR (snd p)) →
            c ∈ t_cols (p_data q) → readable c) →
  ∃ db,
    main w = (Ok tt, set_out w (Some db))
    ∧ ∀ p, p ∈ FILES →
        tables db !! fst p
        = Some (read_parquet (w_files w (path_join DATA_DIR (snd p))))
        ∧ is_Some (views db !! ("v_" +:+ fst p)).
Proof.
  intros Hfiles Hread. unfold main.
  unfold mbind at 1, M_bind at 1, remove_out.
  unfold mbind at 1, M_bind at 1, connect.
  cbn [w_out set_out default from_option].
  unfold mbind at 1, M_bind at 1, create_tables.
  destruct (create_tables_run FILES
              (set_out (set_out w None) (Some empty_db)) empty_db eq_refl Hfiles)
    as (db1 & -> & Hv1 & Hi1 & _ & Htab).
  specialize (Htab files_names_distinct). cbn [w_files set_out] in Htab.
  unfold mbind at 1, M_bind at 1, create_views.
  destruct (create_views_run FILES
              (set_out (set_out (set_out w None) (Some empty_db)) (Some db1))
              db1 eq_refl)
    as (db2 & -> & Ht2 & Hi2 & _ & Hviews).
  { intros p Hp. eexists. split; [by apply Htab|].
    intros c (q & Hq & Hc)%read_parquet_col. by apply (Hread p q c). }
  unfold mbind at 1, M_bind at 1, create_indexes.
  destruct (index_loop INDEX_TABLES
              (set_out (set_out (set_out (set_out w None) (Some empty_db))
                          (Some db1)) (Some db2)) db2 eq_refl)
    as (db3 & -> & Ht3 & Hv3 & _ & _).
  unfold mbind at 1, M_bind at 1, query_views. cbn [w_out set_out].
  assert (Hq : forallb (fun n => bool_decide (is_Some (views db3 !! n)))
                 SPAN_VIEWS = true).
  { apply forallb_forall. intros n Hn%list_elem_of_In.
    apply span_views_of_files in Hn as (p & Hp & ->).
    apply bool_decide_eq_true_2. rewrite Hv3. by apply Hviews. }
  rewrite Hq. exists db3. split; [done|]. intros p Hp. split.
  - rewrite Ht3, Ht2. by apply Htab.
  - rewrite Hv3. by apply Hviews.
Qed.

Lemma build_succeeds_witness :
  ∃ db,
    main full_world = (Ok tt, set_out full_world (Some db))
    ∧ ∀ p, p ∈ FILES →
        tables db !! fst p
        = Some (read_parquet
                  (w_files full_world (path_join DATA_DIR (snd p))))
        ∧ is_Some (views db !! ("v_" +:+ fst p)).
Proof.
  apply (build_succeeds full_world).
  - intros p _. cbn. discriminate.
  - intros p q c _ Hq Hc. cbn in Hq.
    apply list_elem_of_singleton in Hq as ->. cbn in Hc.
    rewrite !elem_of_cons, elem_of_nil in Hc.
    repeat destruct Hc as [->|Hc]; try done;
      (split; [reflexivity|right; reflexivity]).
Defined.

(** X7: When the datasets before one of [FILES] have parts and that one has
    none, [main] raises the [FileNotFoundError] of that dataset; the
    database it leaves has the tables of the datasets before it and no
    other table, no view and no index. *)
Theorem build_stops_at_first_missing (w : world)
    (pre post : list (string * string)) (tbl rel : string) :
  FILES = pre ++ (tbl, rel) :: post →
  (∀ p, p ∈ pre → w_files w (path_join DATA_DIR (snd p)) ≠ []) →
  w_files w (path_join DATA_DIR rel) = [] →
  ∃ db,
    main w
    = (Err (FileNotFoundError
              ("No parquet files match: " +:+ path_join DATA_DIR rel)),
       set_out w (Some db))
    ∧ (∀ p, p ∈ pre →
         tables db !! fst p
         = Some (read_parquet (w_files w (path_join DATA_DIR (snd p)))))
    ∧ (∀ n, n ∉ map fst pre → tables db !! n = None)
    ∧ views db = ∅ ∧ indexes db = ∅.
Proof.
  intros Hsplit Hpre Hrel. unfold main.
  unfold mbind at 1, M_bind at 1, remove_out.
  unfold mbind at 1, M_bind at 1, connect.
  cbn [w_out set_out default from_option].
  unfold mbind at 1, M_bind at 1, create_tables.
  rewrite Hsplit, for_each_app.
  destruct (create_tables_run pre
              (set_out (set_out w None) (Some empty_db)) empty_db eq_refl Hpre)
    as (db1 & -> & Hv1 & Hi1 & Hother & Htab).
  assert (Hnd : NoDup (map fst pre)).
  { pose proof files_names_distinct as Hnd. rewrite Hsplit, map_app in Hnd.
    by apply NoDup_app in Hnd as [? _]. }
  cbn [for_each]. unfold mbind at 1, M_bind at 1.
  rewrite (create_table_run
             (set_out (set_out (set_out w None) (Some empty_db)) (Some db1))
             db1 tbl rel eq_refl).
  cbn [w_files set_out]. rewrite Hrel.
  exists db1. split; [done|]. split; [by apply Htab|].
  split; [|done]. intros n Hn. by rewrite (Hother n Hn).
Qed.

Lemma build_stops_at_first_missing_witness :
  ∃ db,
    main zones_only
    = (Err (FileNotFoundError
              ("No parquet files match: "
               +:+ path_join DATA_DIR "02_fact_trips_sample/*.parquet")),
       set_out zones_only (Some db))
    ∧ (∀ p, p ∈ [("dim_taxi_zone", "01_dim_taxi_zone/*.parquet")] →
         tables db !! fst p
         = Some (read_parquet
                   (w_files zones_only (path_join DATA_DIR (snd p)))))
    ∧ (∀ n, n ∉ map fst [("dim_taxi_zone", "01_dim_taxi_zone/*.parquet")] →
            tables db !! n = None)
    ∧ views db = ∅ ∧ indexes db = ∅.
Proof.
  apply (build_stops_at_first_missing zones_only
           [("dim_taxi_zone", "01_dim_taxi_zone/*.parquet")]
           (List.tl (List.tl FILES))
           "pu_zone_daily" "02_fact_trips_sample/*.parquet").
  - reflexivity.
  - intros p Hp. apply list_elem_of_singleton in Hp as ->. cbn. discriminate.
  - reflexivity.
Defined.

(** *** Running the index loop again *)

Lemma try_idx_fixed (w : world) (db : database) (idx tbl col : string) :
  w_out w = Some db →
  (∀ t, tables db !! tbl = Some t → has_col (t_cols t) col = true →
        is_Some (indexes db !! idx)) →
  try_idx (CreateIndex idx tbl col) w = (Ok tt, w).
Proof.
  intros Hw Hthere. unfold try_idx, con_execute, execute. rewrite Hw.
  destruct (tables db !! tbl) as [t|] eqn:Ht; [|done].
  destruct (has_col (t_cols t) col) eqn:Hc; [|done].
  destruct (Hthere t eq_refl Hc) as [e He]. rewrite He.
  by rewrite (set_out_same w db Hw).
Qed.

Lemma index_loop_fixed (l : list string) (w : world) (db : database) :
  w_out w = Some db →
  (∀ tbl t, tbl ∈ l → tables db !! tbl = Some t →
     (has_col (t_cols t) "pickup_date" = true →
      is_Some (indexes db !! ("idx_" +:+ tbl +:+ "_date")))
     ∧ (has_col (t_cols t) "service_type" = true →
        is_Some (indexes db !! ("idx_" +:+ tbl +:+ "_svc")))) →
  for_each l index_body w = (Ok tt, w).
Proof.
  intros Hw Hall. induction l as [|tbl l IH]; [done|].
  cbn [for_each]. unfold mbind at 1, M_bind at 1.
  unfold index_body, mbind at 1, M_bind at 1.
  rewrite (try_idx_fixed w db _ tbl "pickup_date" Hw).
  2:{ intros t Ht Hc. by apply (Hall tbl t (list_elem_of_here _ _) Ht). }
  rewrite (try_idx_fixed w db _ tbl "service_type" Hw).
  2:{ intros t Ht Hc. by apply (Hall tbl t (list_elem_of_here _ _) Ht). }
  apply IH. intros tbl' t Hin. apply Hall. by apply list_elem_of_further.
Qed.

Lemma try_idx_closed (s : stmt) (w : world) :
  w_out w = None → try_idx s w = (Ok tt, w).
Proof. intros Hw. unfold try_idx, con_execute. by rewrite Hw. Qed.

Lemma index_loop_closed (l : list string) (w : world) :
  w_out w = None → for_each l index_body w = (Ok tt, w).
Proof.
  intros Hw. induction l as [|tbl l IH]; [done|].
  cbn [for_each]. unfold mbind at 1, M_bind at 1.
  unfold index_body, mbind at 1, M_bind at 1.
  rewrite (try_idx_closed _ w Hw), (try_idx_closed _ w Hw). apply IH.
Qed.

(** X9: The index loop is idempotent: run again on the world it leaves, it
    ends without error and changes nothing, whichever of its statements
    failed the first time. *)
Theorem second_index_pass_changes_nothing (w : world) :
  create_indexes (snd (create_indexes w)) = (Ok tt, snd (create_indexes w)).
Proof.
  unfold create_indexes. destruct (w_out w) as [db|] eqn:Hw.
  - destruct (index_loop INDEX_TABLES w db Hw)
      as (db' & -> & Ht & _ & _ & Hi).
    cbn [snd]. apply (index_loop_fixed _ _ db'); [done|].
    intros tbl t Hin Htbl. apply (Hi tbl t Hin). by rewrite <- Ht.
  - rewrite (index_loop_closed INDEX_TABLES w Hw). cbn [snd].
    by apply index_loop_closed.
Qed.

End BuildMore.

(** ** More on the views *)

Module ViewMore.

Import Str Resolver Sql Build StrFacts ResolverFacts SqlFacts.
Import ResolverTheorems SelectFacts ViewFacts ResolverMore.
Import Scenarios BuildScenarios MoreScenarios.

Lemma filter_all_true {A} (f : A → bool) (l : list A) :
  (∀ x, x ∈ l → f x = true) → List.filter f l = l.
Proof.
  induction l as [|a l IH]; intros Hall; [done|]. cbn [List.filter].
  rewrite (Hall a) by apply list_elem_of_here. f_equal. apply IH.
  intros x Hx. by apply Hall, list_elem_of_further.
Qed.

Lemma map_snd_combine {A B} (l : list A) (r : list B) :
  length r = length l → map snd (combine l r) = r.
Proof.
  revert r. induction l as [|a l IH]; intros [|b r] Hlen; try done.
  cbn [combine map snd]. f_equal. apply IH. simpl in Hlen. lia.
Qed.

(** Without EXCLUDE every cell of the row is kept. *)
Lemma project_keeps_all (cols : list string) (r : row) :
  length r = length cols → project false cols r = r.
Proof.
  intros Hlen. unfold project.
  rewrite filter_all_true by done. by apply map_snd_combine.
Qed.

Lemma view_cols_keeps_all (cols : list string) :
  view_cols false cols = cols ++ ["pickup_date"].
Proof. unfold view_cols. by rewrite filter_all_true. Qed.

Section WithCaster.

Context `{Caster}.

(** X10: A table with no date-like column gets its view all the same: the
    view has the columns of the table and then pickup_date, and each of
    its rows is the row of the table followed by NULL. *)
Theorem undated_table_gets_null_dates (w : world) (db : database)
    (tbl : string) (t : table) :
  w_out w = Some db → tables db !! tbl = Some t → table_ok t →
  (∀ c, c ∈ t_cols t →
     (¬ ∃ pre post, lower c = pre +:+ "date" +:+ post)
     ∧ lower c ∉ ["dt"; "ds"; "day"]) →
  ∃ db' vt,
    create_view tbl w = (Ok tt, set_out w (Some db'))
    ∧ select_view db' ("v_" +:+ tbl) = Some vt
    ∧ t_cols vt = t_cols t ++ ["pickup_date"]
    ∧ t_rows vt = map (fun r => r ++ [VNull]) (t_rows t).
Proof.
  intros Hw Ht Hok Hno.
  assert (Hnull : build_date_expr (t_cols t) = "NULL::DATE")
    by by apply null_iff_no_date_names.
  assert (Hpd : has_col (t_cols t) "pickup_date" = false).
  { destruct (has_col (t_cols t) "pickup_date") eqn:Hpd; [|done].
    apply has_col_pickup_date in Hpd as (c & Hc & Hl).
    destruct (Hno c Hc) as [Hbad _]. destruct Hbad.
    exists "pickup_", "". by rewrite Hl. }
  set (v := {| v_source := tbl; v_exclude := false; v_expr := NullDate |}).
  exists (with_view db ("v_" +:+ tbl) v),
    {| t_cols := view_cols false (t_cols t);
       t_rows := map (view_row v (t_cols t)) (t_rows t) |}.
  split.
  { rewrite (create_view_unfold w db tbl t Hw Ht), Hpd, Hnull.
    by apply (con_execute_view_ok w db tbl t false _ NullDate Hw Ht). }
  split; [by apply (select_with_view db ("v_" +:+ tbl) v t)|].
  split; [apply view_cols_keeps_all|].
  cbn [t_rows]. apply map_ext_in. intros r Hr%list_elem_of_In.
  unfold view_row. cbn [v_exclude v_expr v eval_dexpr].
  rewrite project_keeps_all; [done|].
  unfold table_ok in Hok. rewrite Forall_forall in Hok. by apply Hok.
Qed.

Lemma has_col_lower_elem (cols : list string) (k : string) :
  has_col cols k = true ↔ lower k ∈ map lower cols.
Proof.
  unfold has_col, same_name. rewrite existsb_exists. split.
  - intros (c & Hc & Heq%String.eqb_eq). rewrite <- Heq.
    by apply list_elem_of_In, in_map.
  - intros (c & Heq & Hc)%list_elem_of_In%in_map_iff. exists c.
    split; [done|]. by apply String.eqb_eq.
Qed.

(** Tier 1 on a table with pickup_date and service_date and no column
    date: the two columns, in that order, come first. *)
Lemma matches1_pickup_then_service (cols : list string) :
  has_col cols "pickup_date" = true → has_col cols "date" = false →
  has_col cols "service_date" = true →
  ∃ m0 m1 ms, matches1 cols = m0 :: m1 :: ms
              ∧ lower m0 = "pickup_date" ∧ lower m1 = "service_date".
Proof.
  intros Hpd Hd Hsd. pose proof (matches1_lower cols) as Hm.
  unfold DATE_CANDIDATES in Hm. cbn [List.filter] in Hm.
  rewrite bool_decide_eq_true_2 in Hm by by apply (has_col_lower_elem cols "pickup_date").
  rewrite bool_decide_eq_false_2 in Hm.
  2:{ intros Hin. apply (has_col_lower_elem cols "date") in Hin. congruence. }
  rewrite bool_decide_eq_true_2 in Hm by by apply (has_col_lower_elem cols "service_date").
  destruct (matches1 cols) as [|m0 [|m1 ms]]; try done.
  exists m0, m1, ms. cbn [map] in Hm. by injection Hm as -> -> _.
Qed.

(** X11: The priority of [DATE_CANDIDATES] at work: in a table with the
    columns pickup_date and service_date and no column date, a row whose
    raw pickup_date casts to NULL and whose service_date is a date has
    that date as pickup_date in the view. *)
Theorem null_pickup_date_falls_back (w : world) (db : database)
    (tbl : string) (t : table) :
  w_out w = Some db → tables db !! tbl = Some t → table_ok t →
  has_col (t_cols t) "pickup_date" = true →
  has_col (t_cols t) "date" = false →
  has_col (t_cols t) "service_date" = true →
  ∃ db' vt,
    create_view tbl w = (Ok tt, set_out w (Some db'))
    ∧ select_view db' ("v_" +:+ tbl) = Some vt
    ∧ ∀ i r v d,
        t_rows t !! i = Some r →
        lookup_col (t_cols t) r "pickup_date" = Some v →
        try_cast_date v = None →
        lookup_col (t_cols t) r "service_date" = Some (VDate d) →
        ∃ r', t_rows vt !! i = Some r'
              ∧ lookup_col (t_cols vt) r' "pickup_date" = Some (VDate d).
Proof.
  intros Hw Ht Hok Hpd Hd Hsd.
  destruct (matches1_pickup_then_service (t_cols t) Hpd Hd Hsd)
    as (m0 & m1 & ms & Hm & Hm0 & Hm1).
  assert (Hne : matches1 (t_cols t) ≠ []) by by rewrite Hm.
  set (v := {| v_source := tbl; v_exclude := true;
               v_expr := Coalesce (map CastDate (matches1 (t_cols t))) |}).
  exists (with_view db ("v_" +:+ tbl) v),
    {| t_cols := view_cols true (t_cols t);
       t_rows := map (view_row v (t_cols t)) (t_rows t) |}.
  split.
  { rewrite (create_view_unfold w db tbl t Hw Ht), Hpd.
    apply (con_execute_view_ok w db tbl t true _ _ Hw Ht).
    - by apply tier1_parse.
    - apply binds_matches1.
    - by rewrite Hpd. }
  split; [by apply (select_with_view db ("v_" +:+ tbl) v t)|].
  intros i r x d Hr Hx Hnull Hsv. exists (view_row v (t_cols t) r).
  cbn [t_rows t_cols]. rewrite lookup_map, Hr. split; [done|].
  assert (Hlen : length r = length (t_cols t)).
  { unfold table_ok in Hok. rewrite Forall_lookup in Hok. by apply (Hok i). }
  unfold view_row. cbn [v_exclude v_expr v].
  rewrite view_lookup_pickup_date by (done || by left).
  f_equal. rewrite Hm. cbn [map eval_dexpr eval_coalesce eval_cand].
  rewrite (lookup_col_same (t_cols t) r m0 "pickup_date") by done.
  rewrite Hx. cbn [mbind option_bind]. rewrite Hnull.
  rewrite (lookup_col_same (t_cols t) r m1 "service_date") by done.
  rewrite Hsv. cbn [mbind option_bind]. by rewrite try_cast_date_of_date.
Qed.

End WithCaster.

Lemma undated_table_gets_null_dates_witness :
  ∃ db' vt,
    create_view "dim_taxi_zone" zones_world
    = (Ok tt, set_out zones_world (Some db'))
    ∧ select_view db' ("v_" +:+ "dim_taxi_zone") = Some vt
    ∧ t_cols vt = t_cols (p_data zone_part) ++ ["pickup_date"]
    ∧ t_rows vt = map (fun r => r ++ [VNull]) (t_rows (p_data zone_part)).
Proof.
  apply (undated_table_gets_null_dates zones_world zones_db "dim_taxi_zone"
           (p_data zone_part)).
  - reflexivity.
  - reflexivity.
  - repeat constructor.
  - intros c Hc. cbn in Hc. rewrite !elem_of_cons, elem_of_nil in Hc.
    repeat destruct Hc as [->|Hc]; try done;
      (split; [|apply not_elem_by_decide; reflexivity]);
      intros Hin%contains_spec; discriminate Hin.
Defined.

Lemma null_pickup_date_falls_back_witness :
  ∃ db' vt,
    create_view "payment_mix" fallback_world
    = (Ok tt, set_out fallback_world (Some db'))
    ∧ select_view db' ("v_" +:+ "payment_mix") = Some vt
    ∧ ∀ i r v d,
        t_rows fallback_table !! i = Some r →
        lookup_col (t_cols fallback_table) r "pickup_date" = Some v →
        try_cast_date v = None →
        lookup_col (t_cols fallback_table) r "service_date" = Some (VDate d) →
        ∃ r', t_rows vt !! i = Some r'
              ∧ lookup_col (t_cols vt) r' "pickup_date" = Some (VDate d).
Proof.
  apply (null_pickup_date_falls_back fallback_world fallback_db "payment_mix"
           fallback_table).
  - reflexivity.
  - reflexivity.
  - repeat constructor.
  - reflexivity.
  - reflexivity.
  - reflexivity.
Defined.

End ViewMore.

(** ** The second builder *)

Module BuildV2More.

Import Str Resolver Sql Build BuildV2 StrFacts BuildFacts.
Import Scenarios BuildScenarios MoreScenarios.

Lemma foldl_missing (f : string → bool) (acc l : list string) :
  foldl (fun missing g => if f g then missing ++ [g] else missing) acc l
  = acc ++ List.filter f l.
Proof.
  revert acc. induction l as [|g l IH]; intros acc; cbn [foldl List.filter].
  - by rewrite app_nil_r.
  - rewrite IH. destruct (f g); [|done]. by rewrite <- app_assoc.
Qed.

Lemma ensure_inputs_run (w : world) :
  ensure_inputs_exist w
  = match missing_inputs w with
    | [] => (Ok tt, w)
    | missing =>
        (Err (FileNotFoundError
                ("Missing Parquet inputs. Make sure you downloaded the exports:"
                 +:+ newline +:+ "  - "
                 +:+ join (newline +:+ "  - ") missing)), w)
    end.
Proof.
  unfold ensure_inputs_exist, missing_inputs.
  rewrite (foldl_missing (fun g => is_empty (w_files w g))).
  cbn [app]. by destruct (List.filter _ _).
Qed.

(** X12: The second builder names every missing input in one error, in the
    order trips, flags, zones, and raises before it opens the output
    file: after the raise there is no output file. *)
Theorem v2_reports_every_missing_input (w : world) :
  missing_inputs w ≠ [] →
  BuildV2.main w
  = (Err (FileNotFoundError
            ("Missing Parquet inputs. Make sure you downloaded the exports:"
             +:+ newline +:+ "  - "
             +:+ join (newline +:+ "  - ") (missing_inputs w))),
     set_out w None).
Proof.
  intros Hmiss. unfold BuildV2.main.
  unfold mbind at 1, M_bind at 1, remove_out.
  unfold mbind at 1, M_bind at 1. rewrite ensure_inputs_run.
  change (missing_inputs (set_out w None)) with (missing_inputs w).
  by destruct (missing_inputs w).
Qed.

Lemma v2_reports_every_missing_input_witness :
  BuildV2.main no_inputs
  = (Err (FileNotFoundError
            ("Missing Parquet inputs. Make sure you downloaded the exports:"
             +:+ newline +:+ "  - "
             +:+ join (newline +:+ "  - ") [SRC_TRIPS; SRC_FLAGS; SRC_DIMZONE])),
     set_out no_inputs None).
Proof.
  apply (v2_reports_every_missing_input no_inputs). discriminate.
Defined.

Lemma con_execute_scan (w : world) (db : database) (tbl pat : string) :
  w_out w = Some db → w_files w pat ≠ [] →
  con_execute (CreateTableScan tbl pat) w
  = match parquet_scan (w_files w pat) with
    | Some t => (Ok tt, set_out w (Some (with_table db tbl t)))
    | None => (Err EngineError, w)
    end.
Proof.
  intros Hw Hf. unfold con_execute, execute. rewrite Hw.
  destruct (w_files w pat) as [|q qs]; [done|].
  by destruct (parquet_scan (q :: qs)).
Qed.

Lemma con_execute_new_index (w : world) (db : database) (idx tbl col : string)
    (t : table) :
  w_out w = Some db → tables db !! tbl = Some t → indexes db !! idx = None →
  con_execute (CreateIndex idx tbl col) w
  = if has_col (t_cols t) col
    then (Ok tt, set_out w (Some (with_index db idx tbl col)))
    else (Err EngineError, w).
Proof.
  intros Hw Ht Hi. unfold con_execute, execute. rewrite Hw, Ht, Hi.
  by destruct (has_col (t_cols t) col).
Qed.

Lemma missing_inputs_nil (w : world) (g : string) :
  missing_inputs w = [] → g ∈ [SRC_TRIPS; SRC_FLAGS; SRC_DIMZONE] →
  w_files w g ≠ [].
Proof.
  unfold missing_inputs. intros Hnil Hg Hempty.
  assert (Hin : In g (List.filter (fun g => is_empty (w_files w g))
                        [SRC_TRIPS; SRC_FLAGS; SRC_DIMZONE])).
  { apply filter_In. split; [by apply list_elem_of_In|by rewrite Hempty]. }
  by rewrite Hnil in Hin.
Qed.

(** The run of the second builder once its inputs are there: each scan
    the engine refuses and each index it cannot create ends the run, with
    what was created before left in the output file. *)
Lemma v2_main_run (w : world) :
  missing_inputs w = [] →
  BuildV2.main w
  = match parquet_scan (w_files w SRC_TRIPS) with
    | None => (Err EngineError, set_out w (Some empty_db))
    | Some t1 =>
      let db1 := with_table empty_db "trips_agg" t1 in
      match parquet_scan (w_files w SRC_FLAGS) with
      | None => (Err EngineError, set_out w (Some db1))
      | Some t2 =>
        let db2 := with_table db1 "fhvhv_flags_daily" t2 in
        match parquet_scan (w_files w SRC_DIMZONE) with
        | None => (Err EngineError, set_out w (Some db2))
        | Some t3 =>
          let db3 := with_table db2 "dim_taxi_zone" t3 in
          let db4 := with_index db3 "idx_trips_date" "trips_agg"
                       "pickup_date" in
          let db5 := with_index db4 "idx_trips_service" "trips_agg"
                       "service_type" in
          if has_col (t_cols t1) "pickup_date"
          then if has_col (t_cols t1) "service_type"
               then (Ok tt, set_out w (Some db5))
               else (Err EngineError, set_out w (Some db4))
          else (Err EngineError, set_out w (Some db3))
        end
      end
    end.
Proof.
  intros Hall.
  assert (H1 : w_files w SRC_TRIPS ≠ []).
  { apply (missing_inputs_nil w _ Hall), list_elem_of_here. }
  assert (H2 : w_files w SRC_FLAGS ≠ []).
  { apply (missing_inputs_nil w _ Hall), list_elem_of_further, list_elem_of_here. }
  assert (H3 : w_files w SRC_DIMZONE ≠ []).
  { apply (missing_inputs_nil w _ Hall).
    apply list_elem_of_further, list_elem_of_further, list_elem_of_here. }
  unfold BuildV2.main.
  unfold mbind at 1, M_bind at 1, remove_out.
  unfold mbind at 1, M_bind at 1. rewrite ensure_inputs_run.
  change (missing_inputs (set_out w None)) with (missing_inputs w).
  rewrite Hall.
  unfold mbind at 1, M_bind at 1, connect.
  change (set_out (set_out w None)
            (Some (default empty_db (w_out (set_out w None)))))
    with (set_out w (Some empty_db)).
  unfold mbind at 1, M_bind at 1.
  rewrite (con_execute_scan (set_out w (Some empty_db)) empty_db
             "trips_agg" SRC_TRIPS eq_refl H1).
  change (w_files (set_out w (Some empty_db)) SRC_TRIPS)
    with (w_files w SRC_TRIPS).
  destruct (parquet_scan (w_files w SRC_TRIPS)) as [t1|]; [|done].
  cbv zeta.
  set (db1 := with_table empty_db "trips_agg" t1).
  change (set_out (set_out w (Some empty_db)) (Some db1))
    with (set_out w (Some db1)).
  unfold mbind at 1, M_bind at 1.
  rewrite (con_execute_scan (set_out w (Some db1)) db1
             "fhvhv_flags_daily" SRC_FLAGS eq_refl H2).
  change (w_files (set_out w (Some db1)) SRC_FLAGS)
    with (w_files w SRC_FLAGS).
  destruct (parquet_scan (w_files w SRC_FLAGS)) as [t2|]; [|done].
  set (db2 := with_table db1 "fhvhv_flags_daily" t2).
  change (set_out (set_out w (Some db1)) (Some db2))
    with (set_out w (Some db2)).
  unfold mbind at 1, M_bind at 1.
  rewrite (con_execute_scan (set_out w (Some db2)) db2
             "dim_taxi_zone" SRC_DIMZONE eq_refl H3).
  change (w_files (set_out w (Some db2)) SRC_DIMZONE)
    with (w_files w SRC_DIMZONE).
  destruct (parquet_scan (w_files w SRC_DIMZONE)) as [t3|]; [|done].
  set (db3 := with_table db2 "dim_taxi_zone" t3).
  change (set_out (set_out w (Some db2)) (Some db3))
    with (set_out w (Some db3)).
  assert (Ht1 : tables db3 !! "trips_agg" = Some t1).
  { unfold db3, db2, db1. cbn [tables with_table].
    rewrite !lookup_insert_ne by done. by rewrite lookup_insert_eq. }
  unfold mbind at 1, M_bind at 1.
  rewrite (con_execute_new_index (set_out w (Some db3)) db3 "idx_trips_date"
             "trips_agg" "pickup_date" t1 eq_refl Ht1 eq_refl).
  destruct (has_col (t_cols t1) "pickup_date"); [|done].
  unfold mbind at 1, M_bind at 1.
  set (db4 := with_index db3 "idx_trips_date" "trips_agg" "pickup_date").
  change (set_out (set_out w (Some db3)) (Some db4))
    with (set_out w (Some db4)).
  rewrite (con_execute_new_index (set_out w (Some db4)) db4
             "idx_trips_service" "trips_agg" "service_type" t1
             eq_refl Ht1 eq_refl).
  by destruct (has_col (t_cols t1) "service_type").
Qed.

(** The two ways a scan is refused. *)
Lemma parquet_scan_refused (parts : list part) (p : part) :
  head parts = Some p →
  has_col (t_cols (p_data p)) "filename" = true
  ∨ (∃ q c, q ∈ parts ∧ c ∈ t_cols (p_data p)
            ∧ has_col (t_cols (p_data q)) c = false) →
  parquet_scan parts = None.
Proof.
  intros Hhead Hbad. destruct parts as [|p0 rest]; [done|].
  injection Hhead as ->. unfold parquet_scan.
  destruct Hbad as [-> | (q & c & Hq & Hc & Hno)]; [done|].
  destruct (forallb (covers (t_cols (p_data p))) (p :: rest)) eqn:Hall.
  - exfalso.
    assert (Hcov : covers (t_cols (p_data p)) q = true).
    { by apply (proj1 (forallb_forall _ _) Hall), list_elem_of_In. }
    unfold covers in Hcov.
    assert (Hhas : has_col (t_cols (p_data q)) c = true).
    { by apply (proj1 (forallb_forall _ _) Hcov), list_elem_of_In. }
    by rewrite Hno in Hhas.
  - by rewrite orb_true_r.
Qed.

(** X13: With all its inputs there, the second builder fails at its
    first statement, with no table made, when the engine refuses the scan
    of the trips: when the first part has a column filename of its own,
    and when a part lacks a column of the first part.  When the three
    scans give tables, these are the tables of the output file; the two
    index statements are not guarded, so the build ends without error
    when the trips have the columns pickup_date and service_type, and
    raises otherwise, with the tables left in place. *)
Theorem v2_build_needs_index_columns (w : world) :
  missing_inputs w = [] →
  (∀ p, head (w_files w SRC_TRIPS) = Some p →
        has_col (t_cols (p_data p)) "filename" = true
        ∨ (∃ q c, q ∈ w_files w SRC_TRIPS ∧ c ∈ t_cols (p_data p)
                  ∧ has_col (t_cols (p_data q)) c = false) →
        BuildV2.main w = (Err EngineError, set_out w (Some empty_db)))
  ∧ (∀ t1 t2 t3,
       parquet_scan (w_files w SRC_TRIPS) = Some t1 →
       parquet_scan (w_files w SRC_FLAGS) = Some t2 →
       parquet_scan (w_files w SRC_DIMZONE) = Some t3 →
       fst (BuildV2.main w)
       = (if has_col (t_cols t1) "pickup_date"
             && has_col (t_cols t1) "service_type"
          then Ok tt else Err EngineError)
       ∧ ∃ db,
           w_out (snd (BuildV2.main w)) = Some db
           ∧ tables db !! "trips_agg" = Some t1
           ∧ tables db !! "fhvhv_flags_daily" = Some t2
           ∧ tables db !! "dim_taxi_zone" = Some t3).
Proof.
  intros Hall. rewrite (v2_main_run w Hall). split.
  - intros p Hhead Hbad.
    by rewrite (parquet_scan_refused (w_files w SRC_TRIPS) p Hhead Hbad).
  - intros t1 t2 t3 -> -> ->. cbv zeta.
    set (db1 := with_table empty_db "trips_agg" t1).
    set (db2 := with_table db1 "fhvhv_flags_daily" t2).
    set (db3 := with_table db2 "dim_taxi_zone" t3).
    set (db4 := with_index db3 "idx_trips_date" "trips_agg" "pickup_date").
    set (db5 := with_index db4 "idx_trips_service" "trips_agg" "service_type").
    assert (Ht1 : tables db3 !! "trips_agg" = Some t1).
    { unfold db3, db2, db1. cbn [tables with_table].
      rewrite !lookup_insert_ne by done. by rewrite lookup_insert_eq. }
    assert (Ht2 : tables db3 !! "fhvhv_flags_daily" = Some t2).
    { unfold db3, db2. cbn [tables with_table].
      rewrite lookup_insert_ne by done. by rewrite lookup_insert_eq. }
    assert (Ht3 : tables db3 !! "dim_taxi_zone" = Some t3).
    { unfold db3. cbn [tables with_table]. by rewrite lookup_insert_eq. }
    destruct (has_col (t_cols t1) "pickup_date");
      [destruct (has_col (t_cols t1) "service_type")|].
    + split; [done|]. by exists db5.
    + split; [done|]. by exists db4.
    + split; [done|]. by exists db3.
Qed.

Lemma v2_build_needs_index_columns_witness :
  (BuildV2.main named_world
   = (Err EngineError, set_out named_world (Some empty_db)))
  ∧ (BuildV2.main ragged_world
     = (Err EngineError, set_out ragged_world (Some empty_db)))
  ∧ (fst (BuildV2.main agg_world) = Ok tt
     ∧ ∃ db,
         w_out (snd (BuildV2.main agg_world)) = Some db
         ∧ tables db !! "trips_agg" = Some agg_table
         ∧ tables db !! "fhvhv_flags_daily" = Some agg_table
         ∧ tables db !! "dim_taxi_zone" = Some agg_table)
  ∧ (fst (BuildV2.main dated_world) = Err EngineError
     ∧ ∃ db,
         w_out (snd (BuildV2.main dated_world)) = Some db
         ∧ tables db !! "trips_agg" = Some dated_table
         ∧ tables db !! "fhvhv_flags_daily" = Some agg_table
         ∧ tables db !! "dim_taxi_zone" = Some agg_table).
Proof.
  split; [|split; [|split]].
  - apply (proj1 (v2_build_needs_index_columns named_world eq_refl)
             named_part eq_refl).
    left. reflexivity.
  - apply (proj1 (v2_build_needs_index_columns ragged_world eq_refl)
             agg_part eq_refl).
    right. exists short_part, "service_type".
    split; [|split; [|reflexivity]].
    + apply list_elem_of_further, list_elem_of_here.
    + apply list_elem_of_further, list_elem_of_here.
  - apply (proj2 (v2_build_needs_index_columns agg_world eq_refl)
             agg_table agg_table agg_table eq_refl eq_refl eq_refl).
  - apply (proj2 (v2_build_needs_index_columns dated_world eq_refl)
             dated_table agg_table agg_table eq_refl eq_refl eq_refl).
Defined.

End BuildV2More.

(** ** Quoted names *)

Module QuoteMore.


End QuoteMore.

(** ** More on the dashboard filter *)

Module DashboardMore.

Import Resolver Dashboard DashboardScenarios DashboardTheorems.


Section Filter.

Variable to_datetime : cell → option (Z * Z).

Lemma date_stage_columns (df : frame) (s e : Z) :
  columns (date_stage to_datetime df s e) = columns df.
Proof.
  unfold date_stage. destruct (col_index "pickup_date" (columns df)); [|done].
  by destruct (existsb _ _).
Qed.

Lemma service_stage_columns (df : frame) (services : list string) :
  columns (service_stage df services) = columns df.
Proof.
  unfold service_stage.
  destruct (col_index "service_type" (columns df)); [|done].
  by destruct (negb (is_empty services)).
Qed.

Lemma service_stage_rows (df : frame) (services : list string)
    (r : list cell) :
  r ∈ rows (service_stage df services) → r ∈ rows df.
Proof.
  unfold service_stage.
  destruct (col_index "service_type" (columns df)); [|done].
  destruct (negb (is_empty services)); [|done]. cbn [rows with_rows].
  intros [Hr _]%list_elem_of_In%filter_In. by apply list_elem_of_In.
Qed.

Lemma service_stage_length (df : frame) (services : list string) :
  (length (rows (service_stage df services)) ≤ length (rows df))%nat.
Proof.
  unfold service_stage.
  destruct (col_index "service_type" (columns df)); [|done].
  destruct (negb (is_empty services)); [|done]. apply filter_length_le.
Qed.

Lemma date_stage_length (df : frame) (s e : Z) :
  (length (rows (date_stage to_datetime df s e)) ≤ length (rows df))%nat.
Proof.
  unfold date_stage. destruct (col_index "pickup_date" (columns df)); [|done].
  destruct (existsb _ _); [|done]. cbn [rows with_rows].
  etrans; [apply filter_length_le|]. by rewrite length_map.
Qed.

(** A row the date stage lets through is a row of the frame, with at
    most the pickup_date cell rewritten. *)
Lemma date_stage_rows (df : frame) (s e : Z) (r' : list cell) :
  r' ∈ rows (date_stage to_datetime df s e) →
  ∃ r, r ∈ rows df ∧ length r' = length r
       ∧ ∀ j, col_index "pickup_date" (columns df) ≠ Some j → r' !! j = r !! j.
Proof.
  unfold date_stage.
  destruct (col_index "pickup_date" (columns df)) as [i|]; [|by eauto].
  destruct (existsb _ _); [|by eauto]. cbn [rows with_rows].
  intros [Hin _]%list_elem_of_In%filter_In.
  apply in_map_iff in Hin as (r & <- & Hr). exists r.
  split; [by apply list_elem_of_In|]. split; [by rewrite length_insert|].
  intros j Hj. apply list_lookup_insert_ne. congruence.
Qed.

(** X14: The filter keeps the shape of the frame: the columns are the same,
    no row is added, and each row of the result is a row of the frame in
    which at most the pickup_date cell was rewritten. *)
Theorem filter_keeps_shape (df : frame) (start_date end_date : Z)
    (services : list string) :
  columns (filter_by_date_service to_datetime df start_date end_date services)
  = columns df
  ∧ (length (rows (filter_by_date_service to_datetime df start_date end_date
                     services))
     ≤ length (rows df))%nat
  ∧ ∀ r',
      r' ∈ rows (filter_by_date_service to_datetime df start_date end_date
                   services) →
      ∃ r, r ∈ rows df ∧ length r' = length r
           ∧ ∀ j, col_index "pickup_date" (columns df) ≠ Some j →
                  r' !! j = r !! j.
Proof.
  unfold filter_by_date_service. destruct (empty df).
  { split; [done|]. split; [done|]. intros r' Hr'. by exists r'. }
  split; [by rewrite service_stage_columns, date_stage_columns|].
  split.
  - etrans; [apply service_stage_length|]. apply date_stage_length.
  - intros r' Hr'%service_stage_rows.
    apply (date_stage_rows df start_date end_date r' Hr').
Qed.

(** X15: Every row of the result passes the filters that applied: under a
    service_type column and a list of services that is not empty, its
    service is one of the list; under a pickup_date column in which some
    cell converts to a date, its pickup_date is a date between the two
    bounds. *)
Theorem filter_rows_pass (df : frame) (start_date end_date : Z)
    (services : list string) (r' : list cell) :
  r' ∈ rows (filter_by_date_service to_datetime df start_date end_date
               services) →
  (∀ j, col_index "service_type" (columns df) = Some j → services ≠ [] →
        ∃ sv, sv ∈ services ∧ cell_at j r' = CText sv)
  ∧ (∀ i r0, col_index "pickup_date" (columns df) = Some i →
        r0 ∈ rows df → is_Some (to_datetime (cell_at i r0)) →
        ∃ d, cell_at i r' = CDate d
             ∧ (start_date ≤ d)%Z ∧ (d ≤ end_date)%Z).
Proof.
  unfold filter_by_date_service. destruct (empty df) eqn:Hempty.
  { intros Hr'. unfold empty in Hempty.
    destruct (columns df) as [|c cs] eqn:Hcols.
    - split; [by intros j [=]|by intros i r0 [=]].
    - destruct (rows df); [by apply elem_of_nil in Hr'|done]. }
  intros Hr'. split.
  - intros j Hj Hsv. unfold service_stage in Hr'.
    rewrite date_stage_columns, Hj in Hr'.
    destruct services as [|s0 ss]; [done|]. cbn [is_empty negb] in Hr'.
    cbn [rows with_rows] in Hr'.
    apply list_elem_of_In, filter_In in Hr' as [_ Hin]. unfold isin in Hin.
    destruct (cell_at j r') as [| | |sv|]; try done.
    exists sv. split; [|done]. by apply bool_decide_eq_true in Hin.
  - intros i r0 Hi Hr0 Hs. apply service_stage_rows in Hr'.
    unfold date_stage in Hr'. rewrite Hi in Hr'.
    rewrite (existsb_is_Some_true (fun r => to_datetime (cell_at i r))
               (rows df) r0 Hr0 Hs) in Hr'.
    cbn [rows with_rows] in Hr'.
    apply list_elem_of_In, filter_In in Hr' as [_ Hin]. unfold in_range in Hin.
    destruct (cell_at i r') as [|d| | |]; try done.
    exists d. split; [done|]. apply andb_true_iff in Hin as [H1 H2].
    split; by apply Z.leb_le.
Qed.

Lemma with_rows_same (df : frame) : with_rows df (rows df) = df.
Proof. by destruct df. Qed.

Lemma filter_twice {A} (f : A → bool) (l : list A) :
  List.filter f (List.filter f l) = List.filter f l.
Proof.
  apply ViewMore.filter_all_true. intros x Hx%list_elem_of_In%filter_In.
  by destruct Hx.
Qed.

Lemma service_stage_twice (df : frame) (services : list string) :
  service_stage (service_stage df services) services
  = service_stage df services.
Proof.
  unfold service_stage at 1. rewrite service_stage_columns.
  destruct (col_index "service_type" (columns df)) as [j|] eqn:Hj; [|done].
  destruct (negb (is_empty services)) eqn:Hs; [|done].
  unfold service_stage. rewrite Hj, Hs. cbn [rows with_rows columns].
  unfold with_rows. cbn [columns]. by rewrite filter_twice.
Qed.

Lemma no_date_cells {A B} (f : A → option B) (l : list A) :
  existsb (fun d => bool_decide (is_Some d)) (map f l) = false →
  ∀ a, a ∈ l → f a = None.
Proof.
  intros Hex a Ha. destruct (f a) as [b|] eqn:Hfa; [|done].
  rewrite (existsb_is_Some_true f l a Ha) in Hex; [done|by rewrite Hfa].
Qed.

(** After the date stage, either no cell of pickup_date converts to a
    date, or every row holds a date within the bounds. *)
Lemma date_stage_cases (df : frame) (s e : Z) (i : nat) :
  col_index "pickup_date" (columns df) = Some i →
  (∀ r, r ∈ rows (date_stage to_datetime df s e) →
        to_datetime (cell_at i r) = None)
  ∨ (∀ r, r ∈ rows (date_stage to_datetime df s e) →
          ∃ d, r !! i = Some (CDate d) ∧ in_range s e (CDate d) = true).
Proof.
  intros Hi. unfold date_stage. rewrite Hi.
  destruct (existsb _ _) eqn:Hex.
  - right. cbn [rows with_rows].
    intros r [_ Hin]%list_elem_of_In%filter_In. unfold cell_at in Hin.
    destruct (r !! i) as [c|]; [|done]. cbn [default from_option] in Hin.
    destruct c as [|d| | |]; try done. by exists d.
  - left. by apply (no_date_cells (fun r => to_datetime (cell_at i r))).
Qed.

Lemma date_stage_fixed (df : frame) (s e : Z) (i : nat) :
  (∀ d, ∃ t, to_datetime (CDate d) = Some (d, t)) →
  col_index "pickup_date" (columns df) = Some i →
  (∀ r, r ∈ rows df → to_datetime (cell_at i r) = None)
  ∨ (∀ r, r ∈ rows df →
          ∃ d, r !! i = Some (CDate d) ∧ in_range s e (CDate d) = true) →
  date_stage to_datetime df s e = df.
Proof.
  intros Hconv Hi [Hnone|Hdates]; unfold date_stage; rewrite Hi.
  - by rewrite existsb_is_Some_false.
  - destruct (existsb _ _); [|done].
    assert (Hmap : map (fun r => <[i := date_cell to_datetime (cell_at i r)]> r)
                     (rows df) = rows df).
    { rewrite <- (map_id (rows df)) at 2. apply map_ext_in.
      intros r Hr%list_elem_of_In. destruct (Hdates r Hr) as (d & Hd & _).
      assert (Hc : cell_at i r = CDate d) by (unfold cell_at; by rewrite Hd).
      apply list_insert_id. rewrite Hc, Hd. unfold date_cell.
      by destruct (Hconv d) as [t ->]. }
    unfold with_rows. cbn [columns rows]. rewrite Hmap.
    rewrite ViewMore.filter_all_true; [by destruct df|].
    intros r Hr. destruct (Hdates r Hr) as (d & Hd & Hin).
    unfold cell_at. by rewrite Hd.
Qed.

(** X16: The filter is idempotent when dates convert to themselves (a date
    converts to the start of its day): filtering the result again with
    the same bounds and services gives the result. *)
Theorem filter_idempotent (df : frame) (start_date end_date : Z)
    (services : list string) :
  (∀ d, ∃ t, to_datetime (CDate d) = Some (d, t)) →
  filter_by_date_service to_datetime
    (filter_by_date_service to_datetime df start_date end_date services)
    start_date end_date services
  = filter_by_date_service to_datetime df start_date end_date services.
Proof.
  intros Hconv. unfold filter_by_date_service.
  destruct (empty df) eqn:Hempty; [by rewrite Hempty|].
  set (mid := date_stage to_datetime df start_date end_date).
  destruct (empty (service_stage mid services)); [done|].
  assert (Hfix : date_stage to_datetime (service_stage mid services)
                   start_date end_date = service_stage mid services).
  { destruct (col_index "pickup_date" (columns df)) as [i|] eqn:Hi.
    - apply (date_stage_fixed _ _ _ i Hconv).
      + unfold mid. by rewrite service_stage_columns, date_stage_columns.
      + destruct (date_stage_cases df start_date end_date i Hi) as [Hn|Hd].
        * left. intros r Hr%service_stage_rows. by apply Hn.
        * right. intros r Hr%service_stage_rows. by apply Hd.
    - unfold date_stage at 1.
      unfold mid. by rewrite service_stage_columns, date_stage_columns, Hi. }
  rewrite Hfix. apply service_stage_twice.
Qed.

End Filter.

Lemma filter_idempotent_witness :
  filter_by_date_service demo_to_datetime
    (filter_by_date_service demo_to_datetime daily_frame 19905 19910
       ["yellow"; "green"])
    19905 19910 ["yellow"; "green"]
  = filter_by_date_service demo_to_datetime daily_frame 19905 19910
      ["yellow"; "green"].
Proof.
  apply (filter_idempotent demo_to_datetime daily_frame 19905 19910
           ["yellow"; "green"]).
  intros d. by exists 0%Z.
Defined.

Lemma filter_rows_pass_witness :
  (∀ j, col_index "service_type" (columns daily_frame) = Some j →
        ["yellow"; "green"] ≠ [] →
        ∃ sv, sv ∈ ["yellow"; "green"]
              ∧ cell_at j [CDate 19906; CText "green"; CNum 7] = CText sv)
  ∧ (∀ i r0, col_index "pickup_date" (columns daily_frame) = Some i →
        r0 ∈ rows daily_frame → is_Some (demo_to_datetime (cell_at i r0)) →
        ∃ d, cell_at i [CDate 19906; CText "green"; CNum 7] = CDate d
             ∧ (19905 ≤ d)%Z ∧ (d ≤ 19910)%Z).
Proof.
  apply (filter_rows_pass demo_to_datetime daily_frame 19905 19910
           ["yellow"; "green"] [CDate 19906; CText "green"; CNum 7]).
  apply list_elem_of_further, list_elem_of_here.
Defined.

End DashboardMore.
